(** * YtDownloader: the request-handling workflow of [app.py]

    A shallow embedding of the Telegram bot in [src/app.py] and the
    properties of its handlers.

    Python values are modelled as follows.
    - [str] is a list of Unicode code points ([pystr]); literals of the
      source are written as UTF-8 string literals and decoded by [lit].
    - [int] is [Z]; byte sizes, which [os.path.getsize] never returns
      negative, are [N].
    - The metadata [dict] returned by the probe is a [gmap] from keys to
      [pyval].
    - The staging directory is a finite map from paths to byte sizes.
    - A handler is a computation in a state-and-exception monad [M]; the
      state carries the file system and the sequence of effects performed
      so far, in order.
    - The collaborators the source calls but does not define ([validators],
      [yt_dlp], the Telegram transport) are the fields of a [World]: each
      call either returns or raises. *)

From Stdlib Require Import NArith ZArith String Ascii List Lia.
From Stdlib Require Import DecimalN DecimalZ.
From stdpp Require Import base option list gmap.

Local Open Scope N_scope.

(** ** Python strings *)

Module PyStr.

(** A Python [str]: its sequence of code points. *)
Abbreviation pystr := (list N).

(** Decoding of well-formed UTF-8, used for the literals of the source. *)
Fixpoint utf8_decode (bs : list N) : pystr :=
  match bs with
  | [] => []
  | b0 :: r0 =>
    if b0 <? 128 then b0 :: utf8_decode r0
    else match r0 with
    | [] => []
    | b1 :: r1 =>
      if b0 <? 224 then ((b0 - 192) * 64 + (b1 - 128)) :: utf8_decode r1
      else match r1 with
      | [] => []
      | b2 :: r2 =>
        if b0 <? 240
        then ((b0 - 224) * 4096 + (b1 - 128) * 64 + (b2 - 128)) :: utf8_decode r2
        else match r2 with
        | [] => []
        | b3 :: r3 =>
          ((b0 - 240) * 262144 + (b1 - 128) * 4096 + (b2 - 128) * 64 + (b3 - 128))
            :: utf8_decode r3
        end
      end
    end
  end.

(** A string literal of the source. *)
Definition lit (s : string) : pystr :=
  utf8_decode (map N_of_ascii (list_ascii_of_string s)).

(** [str.isspace] on one code point (the characters Python's [strip]
    removes when called without argument). *)
Definition isspace (c : N) : bool :=
  ((9 <=? c) && (c <=? 13)) || ((28 <=? c) && (c <=? 32))
  || (c =? 133) || (c =? 160) || (c =? 5760)
  || ((8192 <=? c) && (c <=? 8202))
  || (c =? 8232) || (c =? 8233) || (c =? 8239) || (c =? 8287) || (c =? 12288).

Fixpoint lstrip (s : pystr) : pystr :=
  match s with
  | [] => []
  | c :: r => if isspace c then lstrip r else s
  end.

Definition rstrip (s : pystr) : pystr := rev (lstrip (rev s)).

(** [s.strip()] *)
Definition strip (s : pystr) : pystr := rstrip (lstrip s).

(** Decimal digits of an unsigned number. *)
Fixpoint uint_digits (u : Decimal.uint) : pystr :=
  match u with
  | Decimal.Nil => []
  | Decimal.D0 u' => 48 :: uint_digits u'
  | Decimal.D1 u' => 49 :: uint_digits u'
  | Decimal.D2 u' => 50 :: uint_digits u'
  | Decimal.D3 u' => 51 :: uint_digits u'
  | Decimal.D4 u' => 52 :: uint_digits u'
  | Decimal.D5 u' => 53 :: uint_digits u'
  | Decimal.D6 u' => 54 :: uint_digits u'
  | Decimal.D7 u' => 55 :: uint_digits u'
  | Decimal.D8 u' => 56 :: uint_digits u'
  | Decimal.D9 u' => 57 :: uint_digits u'
  end.

(** [str(n)] for a natural number. *)
Definition str_of_N (n : N) : pystr := uint_digits (N.to_uint n).

(** [str(z)] for an [int]. *)
Definition str_of_Z (z : Z) : pystr :=
  match z with
  | Zneg p => 45 :: str_of_N (Npos p)
  | _ => str_of_N (Z.to_N z)
  end.

(** *** Formatting of a byte size in MiB: [f"{n / 1024 / 1024:.2f}"]

    [n / 1024] on an [int] is true division: its result is the binary64
    number nearest to the quotient, ties to even; dividing by a power of two
    only changes the exponent, so [n / 1024 / 1024] is exactly
    [float_of_int n / 2^20].  The [.2f] conversion then rounds that exact
    value to two decimals, ties to even.  ([os.path.getsize] returns an
    [off_t], far below the range where binary64 overflows.) *)

(** [n / d] rounded to the nearest integer, ties to even. *)
Definition round_half_even (n d : N) : N :=
  let q := n / d in
  let r := n mod d in
  if 2 * r <? d then q
  else if d <? 2 * r then q + 1
  else if N.even q then q else q + 1.

(** The binary64 number nearest to [n] (53 bits of precision). *)
Definition float_of_int (n : N) : N :=
  if n <? 2 ^ 53 then n
  else let e := N.log2 n - 52 in round_half_even n (2 ^ e) * 2 ^ e.

(** The size in hundredths of a MiB, as the [.2f] conversion rounds it. *)
Definition mib_cents (n : N) : N :=
  round_half_even (float_of_int n * 100) (1024 * 1024).

Definition format_2f (cents : N) : pystr :=
  str_of_N (cents / 100) ++ [46] ++ [48 + cents mod 100 / 10; 48 + cents mod 10].

Definition format_mib (n : N) : pystr := format_2f (mib_cents n).

End PyStr.
Export PyStr.

(** ** Values, exceptions and the collaborators *)

(** The Python values that occur as metadata. *)
Inductive pyval :=
| PyNone
| PyStr (s : pystr)
| PyInt (z : Z).

(** [f"{v}"] *)
Definition py_format (v : pyval) : pystr :=
  match v with
  | PyNone => lit "None"
  | PyStr s => s
  | PyInt z => str_of_Z z
  end.

(** The metadata dictionary returned by the probe. *)
Abbreviation info_dict := (gmap (list N) pyval).

(** The staging directory: the files that exist, with their byte sizes. *)
Abbreviation filesystem := (gmap (list N) N).

(** Exceptions, as far as the handlers tell them apart:
    [yt_dlp.DownloadError], and every other [Exception]; [msg] is [str(e)]. *)
Inductive exn :=
| DownloadError (msg : pystr)
| Exception (msg : pystr).

Definition exn_str (e : exn) : pystr :=
  match e with DownloadError m => m | Exception m => m end.

Inductive result (A : Type) :=
| Returns (a : A)
| Raises (e : exn).
Arguments Returns {A} a.
Arguments Raises {A} e.

(** [update.message]: its text, the sender's id when [from_user] is set,
    and the chat. *)
Record Message := {
  text : pystr;
  from_user : option Z;
  chat_id : Z
}.

Record Update := {
  message : option Message
}.

(** The [ydl_opts] dictionary. *)
Record YdlOpts := {
  outtmpl : pystr;
  format : pystr;
  merge_output_format : pystr;
  quiet : bool;
  no_warnings : bool;
  nocheckcertificate : bool;
  http_chunk_size : Z
}.

(** The keyword arguments of [context.bot.send_document]; [document] is the
    path of the file opened for reading. *)
Record Document := {
  doc_chat_id : Z;
  document : pystr;
  filename : pystr;
  caption : pystr;
  doc_parse_mode : pystr;
  disable_content_type_detection : bool
}.

(** The effects of a handler, one per call. *)
Inductive event :=
| ReplyText (msg : pystr) (parse_mode : pystr)
| YoutubeDL (opts : YdlOpts)
| ExtractInfo (url : pystr) (download : bool)
| Download (urls : list pystr)
| SendDocument (d : Document)
| Remove (path : pystr)
| LogError (msg : pystr).

Record state := {
  fs : filesystem;
  trace : list event
}.

(** What the handlers call and the repository does not define.  Every call
    returns or raises; [download] also changes the staging directory.  The
    outcome of a reply is given per text: while one update is processed, no
    text is sent twice. *)
Record World := {
  validators_url : pystr -> bool;
  extract_info : YdlOpts -> pystr -> result (option info_dict);
  prepare_filename : YdlOpts -> info_dict -> result pystr;
  download : YdlOpts -> list pystr -> filesystem -> result unit * filesystem;
  send_document : Document -> result unit;
  reply_text : pystr -> result unit;
  str_update : option Update -> pystr
}.

(** ** The monad of handlers *)

Definition M (A : Type) : Type := state -> result A * state.

Definition ret {A} (a : A) : M A := fun s => (Returns a, s).

Definition raise {A} (e : exn) : M A := fun s => (Raises e, s).

Definition bind {A B} (m : M A) (k : A -> M B) : M B :=
  fun s =>
    match m s with
    | (Returns a, s') => k a s'
    | (Raises e, s') => (Raises e, s')
    end.

Declare Scope py_scope.
Delimit Scope py_scope with py.
Notation "x <- m ;; k" := (bind m (fun x => k))
  (at level 100, m at next level, k at level 200, right associativity) : py_scope.
Notation "m ;; k" := (bind m (fun _ => k))
  (at level 100, k at level 200, right associativity) : py_scope.
Local Open Scope py_scope.

(** [try: body except ...: handler] *)
Definition try_except {A} (body : M A) (handler : exn -> M A) : M A :=
  fun s =>
    match body s with
    | (Returns a, s') => (Returns a, s')
    | (Raises e, s') => handler e s'
    end.

Definition emit (ev : event) : M unit :=
  fun s => (Returns tt, {| fs := fs s; trace := trace s ++ [ev] |}).

Definition lift {A} (r : result A) : M A := fun s => (r, s).

(** ** The operating system *)

Definition os_path_getsize (path : pystr) : M N :=
  fun s =>
    match fs s !! path with
    | Some n => (Returns n, s)
    | None => (Raises (Exception (lit "FileNotFoundError")), s)
    end.

Definition os_remove (path : pystr) : M unit :=
  emit (Remove path) ;;
  fun s =>
    match fs s !! path with
    | Some _ => (Returns tt, {| fs := delete path (fs s); trace := trace s |})
    | None => (Raises (Exception (lit "FileNotFoundError")), s)
    end.

(** [open(path, 'rb')] *)
Definition open_rb (path : pystr) : M unit :=
  fun s =>
    match fs s !! path with
    | Some _ => (Returns tt, s)
    | None => (Raises (Exception (lit "FileNotFoundError")), s)
    end.

(** [logger.error(msg)] *)
Definition logger_error (msg : pystr) : M unit := emit (LogError msg).

(** ** The bot *)

Module App.

Definition MAX_FILE_SIZE : N := 400 * 1024 * 1024.

Definition DOWNLOAD_DIR : pystr := lit "downloads".

Definition nl : pystr := [10].

Definition HTML : pystr := lit "HTML".

(** [update.message.reply_text(msg, parse_mode='HTML')] on a message that is
    present. *)
Definition reply (w : World) (msg : pystr) : M unit :=
  emit (ReplyText msg HTML) ;;
  lift (reply_text w msg).

(** Attribute access on [update.message], which is [None] for updates that
    carry no message. *)
Definition update_message (update : Update) : M Message :=
  match message update with
  | Some m => ret m
  | None => raise (Exception (lit "'NoneType' object has no attribute"))
  end.

(** [update.message.from_user.id] *)
Definition from_user_id (m : Message) : M Z :=
  match from_user m with
  | Some uid => ret uid
  | None => raise (Exception (lit "'NoneType' object has no attribute"))
  end.

Definition welcome_message : pystr :=
  lit "🎥 <b>Welcome to Video Downloader Bot! 🎥</b>" ++ nl ++ nl ++
  lit "✨ Send me a valid video URL, and I'll grab it for you!" ++ nl ++
  lit "🚀 Supported platforms: YouTube, Vimeo, and more!" ++ nl ++
  lit "ℹ️ Type /help for assistance." ++ nl ++
  lit "<i>(Watch the magic unfold! ✨)</i>".

Definition start (w : World) (update : Update) : M unit :=
  m <- update_message update ;;
  reply w welcome_message.

Definition help_message : pystr :=
  lit "ℹ️ <u>How to Use Video Downloader Bot:</u> ✨" ++ nl ++ nl ++
  lit "1. Send a valid video URL 🎬" ++ nl ++
  lit "2. I'll download it lightning-fast! ⚡" ++ nl ++
  lit "3. Get it back if under 400MB 📥" ++ nl ++ nl ++
  lit "<b>Commands:</b>" ++ nl ++
  lit "/start - Kick things off 🎉" ++ nl ++
  lit "/help - See this message ❓" ++ nl ++ nl ++
  lit "<i>(Hover over text for a surprise! 😄)</i>".

Definition help_command (w : World) (update : Update) : M unit :=
  m <- update_message update ;;
  reply w help_message.

(** *** [download_video] *)

Definition invalid_url_message : pystr :=
  lit "❌ <b>Oops!</b> Send a valid URL! 😕".

Definition downloading_message : pystr :=
  lit "⏳ <b>Downloading...</b> 🌠 (Spinning up turbo mode!)".

Definition ydl_opts (user_id : Z) : YdlOpts := {|
  outtmpl := DOWNLOAD_DIR ++ lit "/" ++ str_of_Z user_id ++ lit "_%(title)s.%(ext)s";
  format := lit "bestvideo[filesize<400M][ext=mp4]+bestaudio[ext=m4a]/best[ext=mp4]/best";
  merge_output_format := lit "mp4";
  quiet := true;
  no_warnings := true;
  nocheckcertificate := true;
  http_chunk_size := 10485760
|}.

(** [d.get(key, dflt)] *)
Definition dict_get (d : info_dict) (key : pystr) (dflt : pyval) : pyval :=
  default dflt (d !! key).

Definition too_large_message (video_title : pyval) (file_size : N) : pystr :=
  lit "❌ <b>Sorry!</b> '" ++ py_format video_title ++ lit "' is too large (" ++
  format_mib file_size ++ lit " MB). Max is 400MB! 😞".

Definition document_of (chat : Z) (output_path : pystr) (video_title : pyval)
  : Document := {|
  doc_chat_id := chat;
  document := output_path;
  filename := py_format video_title ++ lit ".mp4";
  caption := lit "🎉 <b>Here’s your file!</b> " ++ py_format video_title ++ lit " 🚀";
  doc_parse_mode := HTML;
  disable_content_type_detection := true
|}.

Definition cleanup_message : pystr :=
  lit "🗑️ <b>Cleanup complete!</b> File deleted from server. 🌟".

Definition download_failed_message : pystr :=
  lit "❌ <b>Uh-oh!</b> Download failed. URL might not work or is unsupported. 😔 Try again!".

Definition generic_failure_message : pystr :=
  lit "❌ <b>Oops!</b> Something went wrong. Try again later! 😕".

(** The size check and what follows it (lines 81 to 103). *)
Definition gate_and_deliver (w : World) (chat : Z) (output_path : pystr)
    (video_title : pyval) : M unit :=
  file_size <- os_path_getsize output_path ;;
  if MAX_FILE_SIZE <? file_size then
    reply w (too_large_message video_title file_size) ;;
    os_remove output_path
  else
    open_rb output_path ;;
    (emit (SendDocument (document_of chat output_path video_title)) ;;
     lift (send_document w (document_of chat output_path video_title))) ;;
    os_remove output_path ;;
    reply w cleanup_message.

(** [ydl.download([url])] *)
Definition ydl_download (w : World) (opts : YdlOpts) (urls : list pystr)
  : M unit :=
  emit (Download urls) ;;
  fun s => (fst (download w opts urls (fs s)),
            {| fs := snd (download w opts urls (fs s)); trace := trace s |}).

(** The body of the [try] (lines 71 to 103).  [extract_info] may hand back
    [None], on which [info.get] raises. *)
Definition download_workflow (w : World) (opts : YdlOpts) (url : pystr)
    (chat : Z) : M unit :=
  emit (YoutubeDL opts) ;;
  info <- (emit (ExtractInfo url false) ;; lift (extract_info w opts url)) ;;
  match info with
  | None => raise (Exception (lit "'NoneType' object has no attribute 'get'"))
  | Some d =>
    let video_title := dict_get d (lit "title") (PyStr (lit "video")) in
    output_path <- lift (prepare_filename w opts d) ;;
    ydl_download w opts [url] ;;
    gate_and_deliver w chat output_path video_title
  end.

(** The two [except] clauses (lines 105 to 115). *)
Definition on_failure (w : World) (e : exn) : M unit :=
  match e with
  | DownloadError _ => reply w download_failed_message
  | Exception _ =>
    logger_error (lit "Error processing video download: " ++ exn_str e) ;;
    reply w generic_failure_message
  end.

Definition download_video (w : World) (update : Update) : M unit :=
  m <- update_message update ;;
  let url := strip (text m) in
  user_id <- from_user_id m ;;
  let chat := chat_id m in
  if negb (validators_url w url) then
    reply w invalid_url_message
  else
    reply w downloading_message ;;
    try_except (download_workflow w (ydl_opts user_id) url chat) (on_failure w).

(** *** [error_handler] *)

Definition apology_message : pystr :=
  lit "❌ <b>Yikes!</b> An error occurred. Please try again! 😣".

Definition error_handler (w : World) (update : option Update) (error : exn)
  : M unit :=
  logger_error (lit "Update " ++ str_update w update ++ lit " caused error " ++
                exn_str error) ;;
  match update with
  | Some u =>
    match message u with
    | Some _ => reply w apology_message
    | None => ret tt
    end
  | None => ret tt
  end.

(** *** The dispatcher, as [main] wires it

    [main] registers the three handlers and [error_handler] as the error
    handler of the application: an exception escaping a handler is passed,
    with the update, to [error_handler]. *)
Inductive handler := Start | HelpCommand | DownloadVideo.

Definition run_handler (w : World) (h : handler) (update : Update) : M unit :=
  match h with
  | Start => start w update
  | HelpCommand => help_command w update
  | DownloadVideo => download_video w update
  end.

Definition process_update (w : World) (h : handler) (update : Update) : M unit :=
  try_except (run_handler w h update) (error_handler w (Some update)).

End App.

Export App.

(** ** Runs of a handler *)

(** A handler started on a staging directory [files], with no effect
    performed yet: its outcome, the final directory and its effects in
    order. *)
Definition run {A} (m : M A) (files : filesystem) : result A * state :=
  m {| fs := files; trace := [] |}.

(** The effects of [download_video] up to and including the download. *)
Definition stage_events (uid : Z) (url : pystr) : list event :=
  [ReplyText downloading_message HTML; YoutubeDL (ydl_opts uid);
   ExtractInfo url false; Download [url]].

(** The update carries a text message [m] from user [uid]; its stripped
    text is accepted by the validator, the progress notice is delivered, the
    probe returns the metadata [d], the predicted file name is [path] and the
    download returns, leaving the staging directory [files']. *)
Record staged (w : World) (update : Update) (files : filesystem)
    (m : Message) (uid : Z) (d : info_dict) (path : pystr)
    (files' : filesystem) : Prop := {
  staged_message : message update = Some m;
  staged_sender : from_user m = Some uid;
  staged_valid : validators_url w (strip (text m)) = true;
  staged_notice : reply_text w downloading_message = Returns tt;
  staged_probe :
    extract_info w (ydl_opts uid) (strip (text m)) = Returns (Some d);
  staged_filename : prepare_filename w (ydl_opts uid) d = Returns path;
  staged_download :
    download w (ydl_opts uid) [strip (text m)] files = (Returns tt, files')
}.

(** The title the handler uses for the metadata [d]. *)
Definition title_of (d : info_dict) : pyval :=
  dict_get d (lit "title") (PyStr (lit "video")).

(** ** Concrete scenarios *)

Module Demo.

Definition url : pystr := lit "https://example.com/watch?v=1".

Definition path : pystr := lit "downloads/7_Clip.mp4".

Definition info : info_dict := {[ lit "title" := PyStr (lit "Clip") ]}.

Definition blocked : exn :=
  Exception (lit "Forbidden: bot was blocked by the user").

(** A world in which the download leaves a file of [size] bytes at [path],
    the probe and the upload have the given outcomes, and the transport
    refuses exactly the messages listed in [refused]. *)
Definition world (size : N) (probe : result (option info_dict))
    (upload : result unit) (refused : list pystr) : World := {|
  validators_url := fun u => bool_decide (u = url);
  extract_info := fun _ _ => probe;
  prepare_filename := fun _ _ => Returns path;
  download := fun _ _ files => (Returns tt, <[path := size]> files);
  send_document := fun _ => upload;
  reply_text := fun msg =>
    if bool_decide (msg ∈ refused) then Raises blocked else Returns tt;
  str_update := fun _ => lit "Update(update_id=1)"
|}.

Definition msg (t : pystr) : Message :=
  {| text := t; from_user := Some 7%Z; chat_id := 7%Z |}.

Definition update (t : pystr) : Update := {| message := Some (msg t) |}.

(** An oversized download: one byte above the ceiling. *)
Definition oversize : N := MAX_FILE_SIZE + 1.

Definition oversize_notice : pystr :=
  too_large_message (PyStr (lit "Clip")) oversize.

(** Everything succeeds. *)
Definition fine (size : N) : World :=
  world size (Returns (Some info)) (Returns tt) [].

(** The sender has blocked the bot by the time the download has finished:
    the rejection notice is refused. *)
Definition blocked_at_reject : World :=
  world oversize (Returns (Some info)) (Returns tt) [oversize_notice].

(** The probe returns metadata without a title. *)
Definition untitled : World :=
  world 1000 (Returns (Some ∅)) (Returns tt) [].

(** The site is not supported: the probe raises [DownloadError]. *)
Definition unsupported : World :=
  world 0 (Raises (DownloadError (lit "ERROR: Unsupported URL")))
    (Returns tt) [].

(** An update without a message (an edited message, a channel post). *)
Definition no_message : Update := {| message := None |}.

(** The connection drops during the download: [download] raises and
    leaves a partial file behind. *)
Definition partial_path : pystr := lit "downloads/7_Clip.mp4.part".

Definition interrupted : World := {|
  validators_url := fun u => bool_decide (u = url);
  extract_info := fun _ _ => Returns (Some info);
  prepare_filename := fun _ _ => Returns path;
  download := fun _ _ files =>
    (Raises (DownloadError (lit "ERROR: unable to download video data")),
     <[partial_path := 4096]> files);
  send_document := fun _ => Returns tt;
  reply_text := fun _ => Returns tt;
  str_update := fun _ => lit "Update(update_id=1)"
|}.

(** The streams are merged into another container than the one the probe
    predicted: the file is not at the predicted path. *)
Definition merged_path : pystr := lit "downloads/7_Clip.mkv".

Definition mispredicted : World := {|
  validators_url := fun u => bool_decide (u = url);
  extract_info := fun _ _ => Returns (Some info);
  prepare_filename := fun _ _ => Returns path;
  download := fun _ _ files => (Returns tt, <[merged_path := 1000]> files);
  send_document := fun _ => Returns tt;
  reply_text := fun _ => Returns tt;
  str_update := fun _ => lit "Update(update_id=1)"
|}.

(** The metadata has a title key whose value is [None]. *)
Definition null_title : info_dict := {[ lit "title" := PyNone ]}.

(** A text message without a sender (a channel post). *)
Definition anonymous (t : pystr) : Update :=
  {| message := Some {| text := t; from_user := None; chat_id := 7%Z |} |}.

End Demo.

(** A computation only adds effects after those already performed. *)
Definition appends {A} (m : M A) : Prop :=
  forall s, exists evs, trace (m s).2 = trace s ++ evs.

(** [a] occurs before [b] in a sequence of effects. *)
Definition precedes (a b : event) (tr : list event) : Prop :=
  exists i j, (i < j)%nat /\ tr !! i = Some a /\ tr !! j = Some b.

(** ** Counting effects *)

Definition is_reply (ev : event) : bool :=
  match ev with ReplyText _ _ => true | _ => false end.

Definition is_probe (ev : event) : bool :=
  match ev with ExtractInfo _ _ => true | _ => false end.

Definition is_download (ev : event) : bool :=
  match ev with Download _ => true | _ => false end.

Definition is_upload (ev : event) : bool :=
  match ev with SendDocument _ => true | _ => false end.

Definition is_remove (ev : event) : bool :=
  match ev with Remove _ => true | _ => false end.

(** The number of effects of one kind in a sequence. *)
Definition count (kind : event -> bool) (tr : list event) : nat :=
  length (List.filter kind tr).

(** ** Start-up (lines 17 and 18)

    [paths] is the set of paths that exist.  [os.makedirs] raises when its
    target exists. *)
Definition os_makedirs (path : pystr) (paths : gset (list N))
  : result (gset (list N)) :=
  if bool_decide (path ∈ paths) then Raises (Exception (lit "FileExistsError"))
  else Returns ({[path]} ∪ paths).

(** [if not os.path.exists(DOWNLOAD_DIR): os.makedirs(DOWNLOAD_DIR)] *)
Definition ensure_download_dir (paths : gset (list N))
  : result (gset (list N)) :=
  if negb (bool_decide (DOWNLOAD_DIR ∈ paths)) then
    os_makedirs DOWNLOAD_DIR paths
  else Returns paths.

(** * Properties *)

(** ** The string model on the literals of the source *)

Example lit_cross : lit "❌ ok" = [10060; 32; 111; 107].
Proof. reflexivity. Qed.

Example lit_emoji : lit "😕’" = [128533; 8217].
Proof. reflexivity. Qed.

Example strip_ex : strip ([32; 160; 9] ++ lit "http://a.b/c d" ++ [13; 10; 8195])
  = lit "http://a.b/c d".
Proof. reflexivity. Qed.

Example str_of_Z_ex : str_of_Z (-1005) = lit "-1005" /\ str_of_Z 0 = lit "0".
Proof. split; reflexivity. Qed.

Example format_mib_450 : format_mib (450 * 1024 * 1024) = lit "450.00".
Proof. reflexivity. Qed.

Example format_mib_tie : format_mib (400 * 1024 * 1024 + 131072) = lit "400.12".
Proof. reflexivity. Qed.

Example format_mib_small : format_mib 1234567 = lit "1.18".
Proof. reflexivity. Qed.

Example format_mib_beyond_53_bits :
  format_mib (2 ^ 60 + 1) = lit "1099511627776.00".
Proof. vm_compute. reflexivity. Qed.

Example outtmpl_ex :
  outtmpl (ydl_opts 7) = lit "downloads/7_%(title)s.%(ext)s".
Proof. vm_compute. reflexivity. Qed.

(** ** Proof tools *)

Arguments lit : simpl never.
Arguments strip : simpl never.
Arguments format_mib : simpl never.
Arguments str_of_Z : simpl never.
Arguments N.ltb : simpl never.

Ltac step :=
  unfold run, reply, os_remove, os_path_getsize, open_rb, logger_error,
    ydl_download, update_message, from_user_id, try_except, bind, emit,
    lift, ret, raise;
  cbn [fs trace fst snd app negb].

(** An event of another kind than those of an explicit sequence does not
    occur in it; an event listed in an explicit sequence occurs in it. *)
Ltac absent :=
  let Hin := fresh "Hin" in
  unfold stage_events; cbn [fst snd trace app]; intros Hin;
  repeat (apply elem_of_cons in Hin as [Hin|Hin];
          [first [discriminate Hin | vm_compute in Hin; discriminate Hin] |]);
  apply elem_of_nil in Hin; exact Hin.

Ltac present :=
  unfold stage_events; cbn [fst snd trace app];
  repeat first [apply list_elem_of_here | apply list_elem_of_further].

(** ** The workflow, stage by stage *)

Section Stages.

Context (w : World).

Lemma on_failure_eq (e : exn) (s : state) :
  on_failure w e s =
    match e with
    | DownloadError _ =>
      (reply_text w download_failed_message,
       {| fs := fs s;
          trace := trace s ++ [ReplyText download_failed_message HTML] |})
    | Exception msg =>
      (reply_text w generic_failure_message,
       {| fs := fs s;
          trace := trace s ++
            [LogError (lit "Error processing video download: " ++ msg);
             ReplyText generic_failure_message HTML] |})
    end.
Proof.
  destruct e; unfold on_failure; step; [reflexivity |].
  rewrite <- app_assoc. reflexivity.
Qed.

Lemma on_failure_fs (e : exn) (s : state) : fs (on_failure w e s).2 = fs s.
Proof. rewrite on_failure_eq. destruct e; reflexivity. Qed.

(** Up to the size check. *)
Lemma download_video_staged update files m uid d path files' :
  staged w update files m uid d path files' ->
  run (download_video w update) files =
    try_except (gate_and_deliver w (chat_id m) path (title_of d))
      (on_failure w)
      {| fs := files'; trace := stage_events uid (strip (text m)) |}.
Proof.
  intros [Hm Hu Hv Hn Hp Hf Hd]. unfold download_video. step.
  rewrite Hm. cbn [fs trace]. rewrite Hu. cbn [fs trace].
  rewrite Hv, Hn. cbn [negb].
  unfold download_workflow. step.
  rewrite Hp, Hf. step. rewrite Hd. reflexivity.
Qed.

(** The size check on an oversized file. *)
Lemma gate_reject chat path title s size :
  fs s !! path = Some size ->
  MAX_FILE_SIZE < size ->
  gate_and_deliver w chat path title s =
    match reply_text w (too_large_message title size) with
    | Returns _ =>
      (Returns tt,
       {| fs := delete path (fs s);
          trace := trace s ++
            [ReplyText (too_large_message title size) HTML; Remove path] |})
    | Raises e =>
      (Raises e,
       {| fs := fs s;
          trace := trace s ++
            [ReplyText (too_large_message title size) HTML] |})
    end.
Proof.
  intros Hs Hlt. unfold gate_and_deliver. step. rewrite Hs.
  apply N.ltb_lt in Hlt. rewrite Hlt. step.
  destruct (reply_text w _) as [[]|e]; [|reflexivity].
  cbn [fs trace]. rewrite Hs, <- app_assoc. reflexivity.
Qed.

(** The size check on a file within the ceiling. *)
Lemma gate_accept chat path title s size :
  fs s !! path = Some size ->
  size <= MAX_FILE_SIZE ->
  gate_and_deliver w chat path title s =
    match send_document w (document_of chat path title) with
    | Returns _ =>
      (reply_text w cleanup_message,
       {| fs := delete path (fs s);
          trace := trace s ++
            [SendDocument (document_of chat path title); Remove path;
             ReplyText cleanup_message HTML] |})
    | Raises e =>
      (Raises e,
       {| fs := fs s;
          trace := trace s ++ [SendDocument (document_of chat path title)] |})
    end.
Proof.
  intros Hs Hle. unfold gate_and_deliver. step. rewrite Hs.
  apply N.ltb_ge in Hle. rewrite Hle. step. rewrite Hs.
  destruct (send_document w _) as [[]|e]; [|reflexivity].
  cbn [fs trace]. rewrite Hs. cbn [fs trace].
  rewrite <- !app_assoc. reflexivity.
Qed.

(** The whole handler on an oversized download. *)
Lemma run_reject update files m uid d path files' size :
  staged w update files m uid d path files' ->
  files' !! path = Some size ->
  MAX_FILE_SIZE < size ->
  run (download_video w update) files =
    match reply_text w (too_large_message (title_of d) size) with
    | Returns _ =>
      (Returns tt,
       {| fs := delete path files';
          trace := stage_events uid (strip (text m)) ++
            [ReplyText (too_large_message (title_of d) size) HTML;
             Remove path] |})
    | Raises e =>
      on_failure w e
        {| fs := files';
           trace := stage_events uid (strip (text m)) ++
             [ReplyText (too_large_message (title_of d) size) HTML] |}
    end.
Proof.
  intros Hst Hs Hlt. rewrite (download_video_staged _ _ _ _ _ _ _ Hst).
  unfold try_except. rewrite (gate_reject _ _ _ _ size) by assumption.
  destruct (reply_text w _) as [[]|e]; reflexivity.
Qed.

(** The whole handler on a download within the ceiling. *)
Lemma run_accept update files m uid d path files' size :
  staged w update files m uid d path files' ->
  files' !! path = Some size ->
  size <= MAX_FILE_SIZE ->
  run (download_video w update) files =
    match send_document w (document_of (chat_id m) path (title_of d)) with
    | Returns _ =>
      let done :=
        {| fs := delete path files';
           trace := stage_events uid (strip (text m)) ++
             [SendDocument (document_of (chat_id m) path (title_of d));
              Remove path; ReplyText cleanup_message HTML] |} in
      match reply_text w cleanup_message with
      | Returns _ => (Returns tt, done)
      | Raises e => on_failure w e done
      end
    | Raises e =>
      on_failure w e
        {| fs := files';
           trace := stage_events uid (strip (text m)) ++
             [SendDocument (document_of (chat_id m) path (title_of d))] |}
    end.
Proof.
  intros Hst Hs Hle. rewrite (download_video_staged _ _ _ _ _ _ _ Hst).
  unfold try_except. rewrite (gate_accept _ _ _ _ size) by assumption.
  destruct (send_document w _) as [[]|e]; [|reflexivity].
  destruct (reply_text w cleanup_message) as [[]|e]; reflexivity.
Qed.

End Stages.

(** ** The messages *)

Lemma too_large_message_head (title : pyval) (size : N) :
  exists rest,
    too_large_message title size = 10060 :: 32 :: 60 :: 98 :: 62 :: 83 :: rest.
Proof. unfold too_large_message. eexists. reflexivity. Qed.

(** The too-large notice is none of the other notices. *)
Lemma too_large_message_other (title : pyval) (size : N) (msg : pystr) :
  msg ∈ [downloading_message; cleanup_message; download_failed_message;
         generic_failure_message] ->
  too_large_message title size <> msg.
Proof.
  destruct (too_large_message_head title size) as [rest ->].
  rewrite !elem_of_cons, elem_of_nil.
  intros [-> | [-> | [-> | [-> | []]]]]; vm_compute; discriminate.
Qed.

(** Rounding to the nearest integer is off by at most one half. *)
Lemma round_half_even_near (n d : N) :
  0 < d ->
  d * round_half_even n d <= n + d / 2 /\ n <= d * round_half_even n d + d / 2.
Proof.
  intros Hd. unfold round_half_even.
  pose proof (N.div_mod n d ltac:(lia)) as Hn.
  pose proof (N.mod_upper_bound n d ltac:(lia)) as Hr.
  pose proof (N.div_mod d 2 ltac:(lia)) as Hd2.
  pose proof (N.mod_upper_bound d 2 ltac:(lia)) as Hr2.
  generalize dependent (d / 2). generalize dependent (d mod 2).
  generalize dependent (n / d). generalize dependent (n mod d).
  intros r Hr q Hn b Hb h Hh.
  destruct (N.ltb_spec (2 * r) d);
    [|destruct (N.ltb_spec d (2 * r)); [|destruct (N.even q)]]; lia.
Qed.

(** Below 2^53 a size is a binary64 number, and the size printed in the
    notice is within half a hundredth of a MiB of it. *)
Lemma mib_cents_near (size : N) :
  size < 2 ^ 53 ->
  2 ^ 20 * mib_cents size <= 100 * size + 2 ^ 19 /\
  100 * size <= 2 ^ 20 * mib_cents size + 2 ^ 19.
Proof.
  intros Hlt. unfold mib_cents, float_of_int.
  apply N.ltb_lt in Hlt. rewrite Hlt.
  change (1024 * 1024) with (2 ^ 20).
  pose proof (round_half_even_near (size * 100) (2 ^ 20) ltac:(reflexivity)) as H.
  change (2 ^ 20 / 2) with (2 ^ 19) in H. lia.
Qed.

(** ** C1, C2: the size gatekeeper on an oversized download *)

(** C1, as stated, fails: the download has left a file above the ceiling,
    the rejection notice is refused by the transport, the handler returns,
    and the staging file is still there. *)
Lemma oversized_left_behind :
  staged Demo.blocked_at_reject (Demo.update Demo.url) ∅ (Demo.msg Demo.url)
    7 Demo.info Demo.path (<[Demo.path := Demo.oversize]> ∅) /\
  MAX_FILE_SIZE < Demo.oversize /\
  (run (download_video Demo.blocked_at_reject (Demo.update Demo.url)) ∅).1
    = Returns tt /\
  fs (run (download_video Demo.blocked_at_reject (Demo.update Demo.url)) ∅).2
    !! Demo.path = Some Demo.oversize.
Proof.
  split; [|split; [|split]].
  - split; vm_compute; reflexivity.
  - reflexivity.
  - vm_compute; reflexivity.
  - vm_compute; reflexivity.
Qed.

(** C1 (amended). When the download has left a file above the ceiling, the
    handler never calls [send_document]; it replies with a notice made of
    the title and of the size in MiB printed with two decimals (for sizes
    below 2^53, within half a hundredth of a MiB of the true size); and,
    provided that reply is delivered, it returns normally with the staging
    file removed. *)
Theorem oversized_rejected (w : World) (update : Update) (files : filesystem)
    (m : Message) (uid : Z) (d : info_dict) (path : pystr)
    (files' : filesystem) (size : N) :
  staged w update files m uid d path files' ->
  files' !! path = Some size ->
  MAX_FILE_SIZE < size ->
  let notice := too_large_message (title_of d) size in
  let out := run (download_video w update) files in
  (forall doc, SendDocument doc ∉ trace out.2) /\
  ReplyText notice HTML ∈ trace out.2 /\
  notice =
    lit "❌ <b>Sorry!</b> '" ++ py_format (title_of d) ++
    lit "' is too large (" ++
    (str_of_N (mib_cents size / 100) ++ [46] ++
     [48 + mib_cents size mod 100 / 10; 48 + mib_cents size mod 10]) ++
    lit " MB). Max is 400MB! 😞" /\
  (size < 2 ^ 53 ->
   2 ^ 20 * mib_cents size <= 100 * size + 2 ^ 19 /\
   100 * size <= 2 ^ 20 * mib_cents size + 2 ^ 19) /\
  (reply_text w notice = Returns tt ->
   out.1 = Returns tt /\ fs out.2 !! path = None).
Proof.
  intros Hst Hs Hlt notice out.
  assert (Hout : out =
    match reply_text w notice with
    | Returns _ =>
      (Returns tt,
       {| fs := delete path files';
          trace := stage_events uid (strip (text m)) ++
            [ReplyText notice HTML; Remove path] |})
    | Raises e =>
      on_failure w e
        {| fs := files';
           trace := stage_events uid (strip (text m)) ++
             [ReplyText notice HTML] |}
    end) by (apply (run_reject w _ _ _ _ _ _ _ size); assumption).
  clearbody out. subst out.
  split; [|split; [|split; [|split]]].
  - intros doc. destruct (reply_text w notice) as [[]|e].
    + absent.
    + rewrite on_failure_eq. destruct e; absent.
  - destruct (reply_text w notice) as [[]|e].
    + present.
    + rewrite on_failure_eq. destruct e; present.
  - reflexivity.
  - apply mib_cents_near.
  - intros ->. cbn. split; [reflexivity | apply lookup_delete_eq].
Qed.

Lemma oversized_rejected_witness :
  (run (download_video (Demo.fine Demo.oversize) (Demo.update Demo.url)) ∅).1
    = Returns tt /\
  fs (run (download_video (Demo.fine Demo.oversize) (Demo.update Demo.url)) ∅).2
    !! Demo.path = None.
Proof.
  apply (oversized_rejected (Demo.fine Demo.oversize) (Demo.update Demo.url) ∅
           (Demo.msg Demo.url) 7 Demo.info Demo.path
           (<[Demo.path := Demo.oversize]> ∅) Demo.oversize).
  - split; vm_compute; reflexivity.
  - vm_compute; reflexivity.
  - reflexivity.
  - vm_compute; reflexivity.
Defined.

(** C2, as stated, fails: on an oversized download with every reply
    delivered, the too-large reply is the fifth effect and the removal of
    the file the sixth; the removal does not precede the reply. *)
Lemma reject_replies_before_removing :
  trace (run (download_video (Demo.fine Demo.oversize) (Demo.update Demo.url))
           ∅).2 =
    stage_events 7 Demo.url ++
    [ReplyText Demo.oversize_notice HTML; Remove Demo.path] /\
  ~ precedes (Remove Demo.path) (ReplyText Demo.oversize_notice HTML)
      (trace (run (download_video (Demo.fine Demo.oversize)
                     (Demo.update Demo.url)) ∅).2).
Proof.
  assert (H : trace (run (download_video (Demo.fine Demo.oversize)
                            (Demo.update Demo.url)) ∅).2 =
              stage_events 7 Demo.url ++
              [ReplyText Demo.oversize_notice HTML; Remove Demo.path])
    by (vm_compute; reflexivity).
  split; [exact H |]. rewrite H.
  intros (i & j & Hij & Hi & Hj).
  do 6 (destruct i as [|i]; [try discriminate Hi |]).
  - do 6 (destruct j as [|j]; [lia |]). discriminate Hj.
  - discriminate Hi.
Qed.

(** C2 (amended). On a size-limit violation, which is a branch of the
    handler and not an exception, the too-large reply comes first: no file
    is removed before it, the oversized file is removed right after it once
    the reply has been delivered, and when the reply raises no file is
    removed at all and the oversized file stays in the staging directory. *)
Theorem reject_replies_then_removes (w : World) (update : Update)
    (files : filesystem) (m : Message) (uid : Z) (d : info_dict)
    (path : pystr) (files' : filesystem) (size : N) :
  staged w update files m uid d path files' ->
  files' !! path = Some size ->
  MAX_FILE_SIZE < size ->
  let notice := too_large_message (title_of d) size in
  let out := run (download_video w update) files in
  exists rest,
    trace out.2 =
      stage_events uid (strip (text m)) ++ ReplyText notice HTML :: rest /\
    (forall p, Remove p ∉ stage_events uid (strip (text m))) /\
    (reply_text w notice = Returns tt ->
     rest = [Remove path] /\ fs out.2 !! path = None) /\
    (forall e, reply_text w notice = Raises e ->
     (forall p, Remove p ∉ rest) /\ fs out.2 !! path = Some size).
Proof.
  intros Hst Hs Hlt notice out.
  pose proof (run_reject w _ _ _ _ _ _ _ size Hst Hs Hlt) as Hout.
  fold notice in Hout. fold out in Hout. clearbody out.
  destruct (reply_text w notice) as [[]|e] eqn:Hr.
  - exists [Remove path]. subst out. cbn [fst snd fs trace].
    split; [reflexivity |]. split; [intros p; absent |].
    split; [|discriminate].
    intros _. split; [reflexivity | apply lookup_delete_eq].
  - rewrite on_failure_eq in Hout. destruct e as [msg|msg]; subst out.
    + exists [ReplyText download_failed_message HTML]. cbn [fst snd fs trace].
      split; [rewrite <- app_assoc; reflexivity |].
      split; [intros p; absent |]. split; [discriminate |].
      intros e _. split; [intros p; absent | exact Hs].
    + exists [LogError (lit "Error processing video download: " ++ msg);
              ReplyText generic_failure_message HTML].
      cbn [fst snd fs trace].
      split; [rewrite <- app_assoc; reflexivity |].
      split; [intros p; absent |]. split; [discriminate |].
      intros e _. split; [intros p; absent | exact Hs].
Qed.

Lemma reject_replies_then_removes_witness :
  exists rest,
    trace (run (download_video (Demo.fine Demo.oversize)
                  (Demo.update Demo.url)) ∅).2 =
      stage_events 7 (strip (text (Demo.msg Demo.url))) ++
      ReplyText (too_large_message (title_of Demo.info) Demo.oversize) HTML
        :: rest /\
    (forall p,
       Remove p ∉ stage_events 7 (strip (text (Demo.msg Demo.url)))) /\
    (reply_text (Demo.fine Demo.oversize)
       (too_large_message (title_of Demo.info) Demo.oversize) = Returns tt ->
     rest = [Remove Demo.path] /\
     fs (run (download_video (Demo.fine Demo.oversize)
                (Demo.update Demo.url)) ∅).2 !! Demo.path = None) /\
    (forall e,
       reply_text (Demo.fine Demo.oversize)
         (too_large_message (title_of Demo.info) Demo.oversize) = Raises e ->
       (forall p, Remove p ∉ rest) /\
       fs (run (download_video (Demo.fine Demo.oversize)
                  (Demo.update Demo.url)) ∅).2 !! Demo.path
         = Some Demo.oversize).
Proof.
  apply (reject_replies_then_removes (Demo.fine Demo.oversize)
           (Demo.update Demo.url) ∅ (Demo.msg Demo.url) 7 Demo.info Demo.path
           (<[Demo.path := Demo.oversize]> ∅) Demo.oversize).
  - split; vm_compute; reflexivity.
  - vm_compute; reflexivity.
  - reflexivity.
Defined.

(** ** C5, C9, C10: delivery *)

(** The too-large notice does not occur among the effects of a run that
    passes the size check. *)
Ltac no_too_large_notice :=
  let Hin := fresh "Hin" in
  unfold stage_events; cbn [fst snd trace app]; intros Hin;
  repeat (apply elem_of_cons in Hin as [Hin|Hin];
          [first [discriminate Hin
                 | injection Hin as Hin; exfalso;
                   eapply too_large_message_other; [|exact Hin]; present] |]);
  apply elem_of_nil in Hin; exact Hin.

(** C5. A file within the ceiling is uploaded with [send_document], to the
    chat of the request, with content-type detection disabled, under the
    title followed by [.mp4] as file name and with a caption containing the
    title.  When the upload returns, the file is removed and the cleanup
    confirmation is sent next; when the upload raises, no file is removed,
    no confirmation is sent and the file stays in the staging directory. *)
Theorem accepted_sent_as_document (w : World) (update : Update)
    (files : filesystem) (m : Message) (uid : Z) (d : info_dict)
    (path : pystr) (files' : filesystem) (size : N) :
  staged w update files m uid d path files' ->
  files' !! path = Some size ->
  size <= MAX_FILE_SIZE ->
  let doc := document_of (chat_id m) path (title_of d) in
  let out := run (download_video w update) files in
  (doc_chat_id doc = chat_id m /\ document doc = path /\
   filename doc = py_format (title_of d) ++ lit ".mp4" /\
   caption doc =
     lit "🎉 <b>Here’s your file!</b> " ++ py_format (title_of d) ++ lit " 🚀" /\
   disable_content_type_detection doc = true) /\
  exists rest,
    trace out.2 =
      stage_events uid (strip (text m)) ++ SendDocument doc :: rest /\
    (forall p, Remove p ∉ stage_events uid (strip (text m))) /\
    (ReplyText cleanup_message HTML ∉ stage_events uid (strip (text m))) /\
    (send_document w doc = Returns tt ->
     (exists rest',
        rest = Remove path :: ReplyText cleanup_message HTML :: rest') /\
     fs out.2 !! path = None) /\
    (forall e, send_document w doc = Raises e ->
     (forall p, Remove p ∉ rest) /\
     (ReplyText cleanup_message HTML ∉ rest) /\
     fs out.2 !! path = Some size).
Proof.
  intros Hst Hs Hle doc out.
  split; [repeat split |].
  pose proof (run_accept w _ _ _ _ _ _ _ size Hst Hs Hle) as Hout.
  fold doc in Hout. fold out in Hout. clearbody out.
  destruct (send_document w doc) as [[]|e] eqn:Hsend.
  - cbv zeta in Hout.
    destruct (reply_text w cleanup_message) as [[]|e]; subst out.
    + exists [Remove path; ReplyText cleanup_message HTML].
      cbn [fst snd fs trace].
      split; [reflexivity |]. split; [intros p; absent |].
      split; [absent |]. split; [|discriminate].
      intros _. split; [eexists; reflexivity | apply lookup_delete_eq].
    + rewrite on_failure_eq.
      destruct e as [msg|msg]; eexists; cbn [fst snd fs trace];
        (split; [rewrite <- app_assoc; reflexivity |]);
        (split; [intros p; absent |]); (split; [absent |]);
        (split; [|discriminate]); intros _;
        (split; [eexists; reflexivity | apply lookup_delete_eq]).
  - rewrite on_failure_eq in Hout.
    destruct e as [msg|msg]; subst out; eexists; cbn [fst snd fs trace];
      (split; [rewrite <- app_assoc; reflexivity |]);
      (split; [intros p; absent |]); (split; [absent |]);
      (split; [discriminate |]); intros e _;
      (split; [intros p; absent |]); (split; [absent | exact Hs]).
Qed.

Lemma accepted_sent_as_document_witness :
  fs (run (download_video (Demo.fine 1000) (Demo.update Demo.url)) ∅).2
    !! Demo.path = None.
Proof.
  destruct (accepted_sent_as_document (Demo.fine 1000) (Demo.update Demo.url)
              ∅ (Demo.msg Demo.url) 7 Demo.info Demo.path
              (<[Demo.path := 1000]> ∅) 1000)
    as (_ & rest & _ & _ & _ & Hok & _).
  - split; vm_compute; reflexivity.
  - vm_compute; reflexivity.
  - vm_compute; discriminate.
  - apply Hok. vm_compute; reflexivity.
Defined.

(** What a run that passes the size check does, and what a run that fails
    it does. *)
Lemma accept_effects (w : World) update files m uid d path files' size :
  staged w update files m uid d path files' ->
  files' !! path = Some size ->
  size <= MAX_FILE_SIZE ->
  SendDocument (document_of (chat_id m) path (title_of d))
    ∈ trace (run (download_video w update) files).2 /\
  (ReplyText (too_large_message (title_of d) size) HTML
    ∉ trace (run (download_video w update) files).2).
Proof.
  intros Hst Hs Hle.
  pose proof (run_accept w _ _ _ _ _ _ _ size Hst Hs Hle) as Hout.
  cbv zeta in Hout.
  destruct (send_document w _) as [[]|e];
    [destruct (reply_text w cleanup_message) as [[]|e] |];
    try rewrite on_failure_eq in Hout; try destruct e;
    rewrite Hout; (split; [present | no_too_large_notice]).
Qed.

Lemma reject_effects (w : World) update files m uid d path files' size :
  staged w update files m uid d path files' ->
  files' !! path = Some size ->
  MAX_FILE_SIZE < size ->
  ReplyText (too_large_message (title_of d) size) HTML
    ∈ trace (run (download_video w update) files).2 /\
  (SendDocument (document_of (chat_id m) path (title_of d))
    ∉ trace (run (download_video w update) files).2).
Proof.
  intros Hst Hs Hlt.
  pose proof (run_reject w _ _ _ _ _ _ _ size Hst Hs Hlt) as Hout.
  destruct (reply_text w _) as [[]|e];
    try rewrite on_failure_eq in Hout; try destruct e;
    rewrite Hout; (split; [present | absent]).
Qed.

(** C9. The comparison with the ceiling is strict.  A file of exactly
    400 x 1024 x 1024 bytes passes the check: it is handed to
    [send_document] and no too-large notice is sent.  For any measured size,
    the too-large notice is sent exactly when the size is above the ceiling,
    and [send_document] is called exactly when it is not. *)
Theorem ceiling_is_inclusive (w : World) (update : Update)
    (files : filesystem) (m : Message) (uid : Z) (d : info_dict)
    (path : pystr) (files' : filesystem) (size : N) :
  staged w update files m uid d path files' ->
  files' !! path = Some size ->
  let doc := document_of (chat_id m) path (title_of d) in
  let notice := too_large_message (title_of d) size in
  let out := run (download_video w update) files in
  (size = 400 * 1024 * 1024 ->
   SendDocument doc ∈ trace out.2 /\ (ReplyText notice HTML ∉ trace out.2)) /\
  (ReplyText notice HTML ∈ trace out.2 <-> MAX_FILE_SIZE < size) /\
  (SendDocument doc ∈ trace out.2 <-> size <= MAX_FILE_SIZE).
Proof.
  intros Hst Hs doc notice out.
  pose proof (accept_effects w _ _ _ _ _ _ _ size Hst Hs) as Hacc.
  pose proof (reject_effects w _ _ _ _ _ _ _ size Hst Hs) as Hrej.
  fold doc notice out in Hacc, Hrej.
  split; [|split].
  - intros ->. apply Hacc. reflexivity.
  - split; [|intros Hlt; apply Hrej, Hlt].
    intros Hin. destruct (N.lt_ge_cases MAX_FILE_SIZE size) as [|Hle];
      [assumption |]. destruct (Hacc Hle) as [_ Hno]. contradiction.
  - split; [|intros Hle; apply Hacc, Hle].
    intros Hin. destruct (N.lt_ge_cases MAX_FILE_SIZE size) as [Hlt|];
      [|assumption]. destruct (Hrej Hlt) as [_ Hno]. contradiction.
Qed.

Lemma ceiling_is_inclusive_witness :
  SendDocument (document_of 7 Demo.path (title_of Demo.info))
    ∈ trace (run (download_video (Demo.fine (400 * 1024 * 1024))
                    (Demo.update Demo.url)) ∅).2 /\
  (ReplyText (too_large_message (title_of Demo.info) (400 * 1024 * 1024)) HTML
    ∉ trace (run (download_video (Demo.fine (400 * 1024 * 1024))
                    (Demo.update Demo.url)) ∅).2).
Proof.
  destruct (ceiling_is_inclusive (Demo.fine (400 * 1024 * 1024))
              (Demo.update Demo.url) ∅ (Demo.msg Demo.url) 7 Demo.info
              Demo.path (<[Demo.path := 400 * 1024 * 1024]> ∅)
              (400 * 1024 * 1024)) as (Hexact & _).
  - split; vm_compute; reflexivity.
  - vm_compute; reflexivity.
  - apply Hexact. reflexivity.
Defined.

(** C10. When the metadata of the probe has no title, the title is the
    string [video]: the too-large notice names [video], and an accepted file
    is sent under the name [video.mp4] with a caption naming [video]. *)
Theorem missing_title_defaults (w : World) (update : Update)
    (files : filesystem) (m : Message) (uid : Z) (d : info_dict)
    (path : pystr) (files' : filesystem) (size : N) :
  staged w update files m uid d path files' ->
  d !! lit "title" = None ->
  files' !! path = Some size ->
  let out := run (download_video w update) files in
  title_of d = PyStr (lit "video") /\
  (MAX_FILE_SIZE < size ->
   ReplyText (lit "❌ <b>Sorry!</b> 'video' is too large (" ++
              format_mib size ++ lit " MB). Max is 400MB! 😞") HTML
     ∈ trace out.2) /\
  (size <= MAX_FILE_SIZE ->
   exists doc,
     SendDocument doc ∈ trace out.2 /\
     filename doc = lit "video.mp4" /\
     caption doc = lit "🎉 <b>Here’s your file!</b> video 🚀").
Proof.
  intros Hst Hd Hs out.
  assert (Ht : title_of d = PyStr (lit "video"))
    by (unfold title_of, dict_get; rewrite Hd; reflexivity).
  pose proof (accept_effects w _ _ _ _ _ _ _ size Hst Hs) as Hacc.
  pose proof (reject_effects w _ _ _ _ _ _ _ size Hst Hs) as Hrej.
  fold out in Hrej, Hacc. rewrite Ht in Hrej, Hacc.
  split; [exact Ht |]. split.
  - intros Hlt. apply Hrej in Hlt as [Hlt _].
    replace (lit "❌ <b>Sorry!</b> 'video' is too large (" ++
             format_mib size ++ lit " MB). Max is 400MB! 😞")
      with (too_large_message (PyStr (lit "video")) size); [exact Hlt |].
    unfold too_large_message, py_format. generalize (format_mib size).
    intros f. vm_compute. reflexivity.
  - intros Hle. apply Hacc in Hle as [Hle _]. eexists.
    split; [exact Hle |]. split; vm_compute; reflexivity.
Qed.

Lemma missing_title_defaults_witness :
  exists doc,
    SendDocument doc
      ∈ trace (run (download_video Demo.untitled (Demo.update Demo.url)) ∅).2 /\
    filename doc = lit "video.mp4" /\
    caption doc = lit "🎉 <b>Here’s your file!</b> video 🚀".
Proof.
  destruct (missing_title_defaults Demo.untitled (Demo.update Demo.url) ∅
              (Demo.msg Demo.url) 7 ∅ Demo.path (<[Demo.path := 1000]> ∅)
              1000) as (_ & _ & Hacc).
  - split; vm_compute; reflexivity.
  - vm_compute; reflexivity.
  - vm_compute; reflexivity.
  - apply Hacc. vm_compute; discriminate.
Defined.

(** ** C4: text that is not a URL *)

(** C4. When the validator rejects the stripped text of a message, the
    handler does one thing: it replies with the invalid-URL notice.  Its
    outcome is the outcome of that reply (it returns as soon as the notice
    is sent), the staging directory is untouched, and no other effect
    occurs: no downloader is constructed, no progress notice is sent, nothing
    is probed or downloaded. *)
Theorem invalid_url_stops (w : World) (update : Update) (files : filesystem)
    (m : Message) (uid : Z) :
  message update = Some m ->
  from_user m = Some uid ->
  validators_url w (strip (text m)) = false ->
  run (download_video w update) files =
    (reply_text w invalid_url_message,
     {| fs := files; trace := [ReplyText invalid_url_message HTML] |}).
Proof.
  intros Hm Hu Hv. unfold download_video. step.
  rewrite Hm. cbn [fs trace]. rewrite Hu. cbn [fs trace].
  rewrite Hv. reflexivity.
Qed.

Lemma invalid_url_stops_witness :
  run (download_video (Demo.world 1 (Returns None) (Returns tt) [])
         (Demo.update (lit "  not a url  "))) ∅ =
    (Returns tt, {| fs := ∅; trace := [ReplyText invalid_url_message HTML] |}).
Proof.
  etrans.
  - apply (invalid_url_stops _ _ _ (Demo.msg (lit "  not a url  ")) 7%Z);
      vm_compute; reflexivity.
  - vm_compute; reflexivity.
Defined.

(** ** C6: failures inside the [try] *)



(** ** C7: the error handler *)

(** C7. An exception that escapes a handler is passed, with the update, to
    [error_handler].  The error handler logs the update together with the
    error; then it replies with the apology when the update carries a
    message, and does nothing more when there is no update or no message. *)
Theorem escaping_exception_is_logged (w : World) (h : handler)
    (update : Update) (s : state) (e : exn) (s1 : state) :
  run_handler w h update s = (Raises e, s1) ->
  process_update w h update s = error_handler w (Some update) e s1 /\
  forall (u : option Update) (err : exn) (s0 : state),
    error_handler w u err s0 =
      match u ≫= message with
      | Some _ =>
        (reply_text w apology_message,
         {| fs := fs s0;
            trace := trace s0 ++
              [LogError (lit "Update " ++ str_update w u ++
                         lit " caused error " ++ exn_str err);
               ReplyText apology_message HTML] |})
      | None =>
        (Returns tt,
         {| fs := fs s0;
            trace := trace s0 ++
              [LogError (lit "Update " ++ str_update w u ++
                         lit " caused error " ++ exn_str err)] |})
      end.
Proof.
  intros Hh. split.
  - unfold process_update, try_except. rewrite Hh. reflexivity.
  - intros u err s0. unfold error_handler. step.
    destruct u as [[[msg|]]|]; cbn; try reflexivity.
    rewrite <- app_assoc. reflexivity.
Qed.

Lemma escaping_exception_is_logged_witness :
  run (process_update (Demo.fine 0) DownloadVideo Demo.no_message) ∅ =
    (Returns tt,
     {| fs := ∅;
        trace := [LogError (lit "Update " ++ lit "Update(update_id=1)" ++
                            lit " caused error " ++
                            lit "'NoneType' object has no attribute")] |}).
Proof.
  destruct (escaping_exception_is_logged (Demo.fine 0) DownloadVideo
              Demo.no_message {| fs := ∅; trace := [] |}
              (Exception (lit "'NoneType' object has no attribute"))
              {| fs := ∅; trace := [] |}) as [Hp He].
  - vm_compute; reflexivity.
  - unfold run. rewrite Hp, He. vm_compute; reflexivity.
Defined.

(** ** C8: surrounding whitespace *)

Section Strip.

Implicit Types s u ws : list N.

Lemma lstrip_spaces ws s :
  Forall (fun c => isspace c = true) ws -> lstrip (ws ++ s) = lstrip s.
Proof.
  induction 1 as [|c ws Hc _ IH]; [reflexivity |].
  cbn [app lstrip]. rewrite Hc. exact IH.
Qed.

Lemma lstrip_length s : (length (lstrip s) <= length s)%nat.
Proof.
  induction s as [|c s IH]; cbn [lstrip]; [reflexivity |].
  destruct (isspace c); cbn [length]; lia.
Qed.

Lemma rstrip_length s : (length (rstrip s) <= length s)%nat.
Proof.
  unfold rstrip. rewrite length_rev.
  etrans; [apply lstrip_length |]. rewrite length_rev. reflexivity.
Qed.

(** A string that [lstrip] leaves alone does not start with whitespace. *)
Lemma lstrip_fixed_head c s : isspace c = true -> lstrip (c :: s) <> c :: s.
Proof.
  intros Hc Heq. cbn [lstrip] in Heq. rewrite Hc in Heq.
  pose proof (lstrip_length s) as Hlen. rewrite Heq in Hlen.
  cbn [length] in Hlen. lia.
Qed.

Lemma lstrip_fixed_app u s : lstrip u = u -> u <> [] -> lstrip (u ++ s) = u ++ s.
Proof.
  destruct u as [|c u]; [congruence |]. intros Hfix _.
  destruct (isspace c) eqn:Hc; [destruct (lstrip_fixed_head c u Hc Hfix) |].
  cbn [app lstrip]. rewrite Hc. reflexivity.
Qed.

Lemma rstrip_spaces s ws :
  Forall (fun c => isspace c = true) ws -> rstrip (s ++ ws) = rstrip s.
Proof.
  intros Hws. unfold rstrip. rewrite rev_app_distr, lstrip_spaces;
    [reflexivity |]. apply Forall_rev, Hws.
Qed.

(** A stripped string is left alone by both halves of [strip]. *)
Lemma strip_fixed u : strip u = u -> lstrip u = u /\ rstrip u = u.
Proof.
  intros Hfix. assert (Hl : lstrip u = u).
  { destruct u as [|c u]; [reflexivity |].
    destruct (isspace c) eqn:Hc; [|cbn [lstrip]; rewrite Hc; reflexivity].
    exfalso. pose proof (rstrip_length (lstrip (c :: u))) as H1.
    fold (strip (c :: u)) in H1. rewrite Hfix in H1.
    cbn [lstrip] in H1. rewrite Hc in H1.
    pose proof (lstrip_length u). cbn [length] in H1. lia. }
  split; [exact Hl |]. unfold strip in Hfix. rewrite Hl in Hfix. exact Hfix.
Qed.

Lemma strip_surrounded ws1 u ws2 :
  Forall (fun c => isspace c = true) ws1 ->
  Forall (fun c => isspace c = true) ws2 ->
  strip u = u ->
  strip (ws1 ++ u ++ ws2) = u.
Proof.
  intros H1 H2 Hfix. destruct (strip_fixed u Hfix) as [Hl Hr].
  unfold strip. rewrite lstrip_spaces by assumption.
  destruct u as [|c u].
  - cbn [app]. rewrite <- (app_nil_r ws2), lstrip_spaces by assumption.
    reflexivity.
  - rewrite lstrip_fixed_app by (assumption || discriminate).
    rewrite rstrip_spaces by assumption. exact Hr.
Qed.

End Strip.

(** Every computation of the handlers only adds effects. *)
Section Appends.

Context (w : World).

Lemma appends_bind {A B} (c : M A) (k : A -> M B) :
  appends c -> (forall a, appends (k a)) -> appends (bind c k).
Proof.
  intros Hc Hk s. unfold bind. destruct (Hc s) as [evs Hevs].
  destruct (c s) as [[a|e] s']; cbn [snd] in *.
  - destruct (Hk a s') as [evs' Hevs']. exists (evs ++ evs').
    rewrite Hevs', Hevs, app_assoc. reflexivity.
  - exists evs. exact Hevs.
Qed.

Lemma appends_try {A} (c : M A) (k : exn -> M A) :
  appends c -> (forall e, appends (k e)) -> appends (try_except c k).
Proof.
  intros Hc Hk s. unfold try_except. destruct (Hc s) as [evs Hevs].
  destruct (c s) as [[a|e] s']; cbn [snd] in *.
  - exists evs. exact Hevs.
  - destruct (Hk e s') as [evs' Hevs']. exists (evs ++ evs').
    rewrite Hevs', Hevs, app_assoc. reflexivity.
Qed.

Lemma appends_emit ev : appends (emit ev).
Proof. intros s. exists [ev]. reflexivity. Qed.

Lemma appends_lift {A} (r : result A) : appends (lift r).
Proof. intros s. exists []. cbn. rewrite app_nil_r. reflexivity. Qed.

Lemma appends_raise {A} (e : exn) : appends (@raise A e).
Proof. intros s. exists []. cbn. rewrite app_nil_r. reflexivity. Qed.

Lemma appends_getsize path : appends (os_path_getsize path).
Proof.
  intros s. exists []. unfold os_path_getsize.
  destruct (fs s !! path); cbn; rewrite app_nil_r; reflexivity.
Qed.

Lemma appends_open path : appends (open_rb path).
Proof.
  intros s. exists []. unfold open_rb.
  destruct (fs s !! path); cbn; rewrite app_nil_r; reflexivity.
Qed.

Lemma appends_remove path : appends (os_remove path).
Proof.
  apply appends_bind; [apply appends_emit |]. intros _ s. exists [].
  destruct (fs s !! path); cbn; rewrite app_nil_r; reflexivity.
Qed.

Lemma appends_reply msg : appends (reply w msg).
Proof.
  apply appends_bind; [apply appends_emit | intros _; apply appends_lift].
Qed.

Lemma appends_on_failure e : appends (on_failure w e).
Proof.
  destruct e; [apply appends_reply |].
  apply appends_bind; [apply appends_emit | intros _; apply appends_reply].
Qed.

Lemma appends_gate chat path title :
  appends (gate_and_deliver w chat path title).
Proof.
  apply appends_bind; [apply appends_getsize |]. intros size.
  destruct (MAX_FILE_SIZE <? size).
  - apply appends_bind; [apply appends_reply |].
    intros _; apply appends_remove.
  - apply appends_bind; [apply appends_open |]. intros _.
    apply appends_bind.
    { apply appends_bind; [apply appends_emit | intros _; apply appends_lift]. }
    intros _. apply appends_bind; [apply appends_remove |].
    intros _; apply appends_reply.
Qed.

Lemma appends_download opts urls : appends (ydl_download w opts urls).
Proof.
  apply appends_bind; [apply appends_emit |]. intros _ s. exists [].
  cbn. rewrite app_nil_r. reflexivity.
Qed.

(** The workflow starts by constructing the downloader and probing [url]. *)
Lemma download_workflow_starts opts url chat s :
  exists evs,
    trace (download_workflow w opts url chat s).2 =
      trace s ++ [YoutubeDL opts; ExtractInfo url false] ++ evs.
Proof.
  set (rest := fun info : option info_dict =>
    match info with
    | None =>
      raise (Exception (lit "'NoneType' object has no attribute 'get'"))
    | Some d =>
      (output_path <- lift (prepare_filename w opts d) ;;
       ydl_download w opts [url] ;;
       gate_and_deliver w chat output_path
         (dict_get d (lit "title") (PyStr (lit "video"))))%py
    end).
  assert (Hrest : forall info, appends (rest info)).
  { intros [d|]; [|apply appends_raise].
    apply appends_bind; [apply appends_lift |]. intros output_path.
    apply appends_bind; [apply appends_download |].
    intros _; apply appends_gate. }
  change (download_workflow w opts url chat)
    with (emit (YoutubeDL opts) ;;
          info <- (emit (ExtractInfo url false) ;;
                   lift (extract_info w opts url)) ;;
          rest info)%py.
  clearbody rest. unfold bind, emit, lift. cbn [fs trace].
  destruct (extract_info w opts url) as [info|e].
  - destruct (Hrest info
                {| fs := fs s;
                   trace := (trace s ++ [YoutubeDL opts]) ++
                            [ExtractInfo url false] |}) as [evs Hevs].
    exists evs. rewrite Hevs. cbn [trace].
    rewrite <- !app_assoc. reflexivity.
  - exists []. cbn [snd trace]. rewrite <- !app_assoc. reflexivity.
Qed.

End Appends.

(** C8. The text of the message is stripped before it is validated and
    before it is handed to the downloader.  For a text made of a stripped
    string [u] that the validator accepts, with whitespace before and after
    it, the stripped text is [u], validation succeeds, and the handler goes
    on with the progress notice followed by the download workflow on [u]:
    once the notice is delivered, the downloader is constructed and [u] is
    what is probed. *)
Theorem surrounding_whitespace_is_stripped (w : World) (update : Update)
    (files : filesystem) (m : Message) (uid : Z) (ws1 u ws2 : list N) :
  message update = Some m ->
  from_user m = Some uid ->
  text m = ws1 ++ u ++ ws2 ->
  Forall (fun c => isspace c = true) ws1 ->
  Forall (fun c => isspace c = true) ws2 ->
  strip u = u ->
  validators_url w u = true ->
  let out := run (download_video w update) files in
  strip (text m) = u /\
  validators_url w (strip (text m)) = true /\
  out =
    run (reply w downloading_message ;;
         try_except (download_workflow w (ydl_opts uid) u (chat_id m))
           (on_failure w))%py files /\
  (reply_text w downloading_message = Returns tt ->
   exists evs,
     trace out.2 =
       [ReplyText downloading_message HTML; YoutubeDL (ydl_opts uid);
        ExtractInfo u false] ++ evs).
Proof.
  intros Hm Hu Ht H1 H2 Hfix Hv out.
  assert (Hs : strip (text m) = u)
    by (rewrite Ht; apply strip_surrounded; assumption).
  assert (Hout : out =
    run (reply w downloading_message ;;
         try_except (download_workflow w (ydl_opts uid) u (chat_id m))
           (on_failure w))%py files).
  { unfold out, download_video. step.
    rewrite Hm. cbn [fs trace]. rewrite Hu. cbn [fs trace].
    rewrite Hs, Hv. reflexivity. }
  split; [exact Hs |]. split; [rewrite Hs; exact Hv |].
  split; [exact Hout |].
  intros Hn. rewrite Hout. step. rewrite Hn. cbn [fs trace app].
  destruct (download_workflow_starts w (ydl_opts uid) u (chat_id m)
              {| fs := files; trace := [ReplyText downloading_message HTML] |})
    as [evs Hevs].
  destruct (download_workflow w (ydl_opts uid) u (chat_id m) _)
    as [[[]|e] s1]; cbn [snd] in *.
  - exists evs. exact Hevs.
  - destruct (appends_on_failure w e s1) as [evs' Hevs'].
    exists (evs ++ evs'). rewrite Hevs', Hevs. cbn [trace app].
    reflexivity.
Qed.

Lemma surrounding_whitespace_is_stripped_witness :
  strip (text (Demo.msg ([32; 9] ++ Demo.url ++ [13; 10]))) = Demo.url /\
  exists evs,
    trace (run (download_video (Demo.fine 1000)
                  (Demo.update ([32; 9] ++ Demo.url ++ [13; 10]))) ∅).2 =
      [ReplyText downloading_message HTML; YoutubeDL (ydl_opts 7);
       ExtractInfo Demo.url false] ++ evs.
Proof.
  destruct (surrounding_whitespace_is_stripped (Demo.fine 1000)
              (Demo.update ([32; 9] ++ Demo.url ++ [13; 10])) ∅
              (Demo.msg ([32; 9] ++ Demo.url ++ [13; 10])) 7
              [32; 9] Demo.url [13; 10])
    as (Hs & _ & _ & Hev).
  - reflexivity.
  - reflexivity.
  - reflexivity.
  - repeat constructor.
  - repeat constructor.
  - vm_compute; reflexivity.
  - vm_compute; reflexivity.
  - split; [exact Hs |]. apply Hev. vm_compute; reflexivity.
Defined.

(** * Further properties of the handlers *)

(** Case analysis of a run: every call of the handler is unfolded and every
    outcome of the collaborators and of the file system is split. *)
Ltac split_outcomes :=
  repeat (cbn [fs trace fst snd negb app];
    match goal with
    | |- context [match ?x with Returns _ => _ | Raises _ => _ end] =>
      lazymatch type of x with
      | result unit => destruct x as [[]|?] eqn:?
      | _ => destruct x eqn:?
      end
    | |- context [match ?x with Some _ => _ | None => _ end] =>
      destruct x eqn:?
    | |- context [match ?x with DownloadError _ => _ | Exception _ => _ end] =>
      destruct x eqn:?
    | |- context [if ?x then _ else _] => destruct x eqn:?
    | |- context [let (_, _) := ?x in _] => destruct x eqn:?
    end).

Ltac all_runs :=
  unfold run, download_video, download_workflow, gate_and_deliver, on_failure,
    reply, os_remove, os_path_getsize, open_rb, logger_error, ydl_download,
    update_message, from_user_id, try_except, bind, emit, lift, ret, raise;
  split_outcomes; cbn [fs trace fst snd negb app].

(** The handler never retries: whatever the collaborators do, one update
    is probed, downloaded and uploaded at most once, at most one file is
    removed, and at most three replies are sent. *)
Theorem download_video_no_retry (w : World) (update : Update)
    (files : filesystem) :
  (count is_probe (trace (run (download_video w update) files).2) <= 1 /\
   count is_download (trace (run (download_video w update) files).2) <= 1 /\
   count is_upload (trace (run (download_video w update) files).2) <= 1 /\
   count is_remove (trace (run (download_video w update) files).2) <= 1 /\
   count is_reply (trace (run (download_video w update) files).2) <= 3)%nat.
Proof.
  all_runs;
    cbv [count List.filter is_probe is_download is_upload is_remove is_reply
         length]; lia.
Qed.

(** Reading an explicit sequence of effects: the hypothesis [H] that an
    event occurs in it is split into one case per position where the event
    can be. *)
Ltac occurs_in H :=
  repeat (apply elem_of_cons in H as [H|H];
          [first [discriminate H
                 | vm_compute in H; discriminate H
                 | idtac] |]);
  try (apply elem_of_nil in H; destruct H).

(** Whatever the collaborators do, a file is handed to [send_document] only
    after the probe, the prediction of the file name and the download have
    all returned, and only if the file at the predicted path exists and is
    within the ceiling; the upload is that file, under the title of the
    probe. *)
Theorem upload_only_within_ceiling (w : World) (update : Update)
    (files : filesystem) (doc : Document) :
  SendDocument doc ∈ trace (run (download_video w update) files).2 ->
  exists m uid d size,
    message update = Some m /\
    from_user m = Some uid /\
    validators_url w (strip (text m)) = true /\
    extract_info w (ydl_opts uid) (strip (text m)) = Returns (Some d) /\
    prepare_filename w (ydl_opts uid) d = Returns (document doc) /\
    (download w (ydl_opts uid) [strip (text m)] files).1 = Returns tt /\
    (download w (ydl_opts uid) [strip (text m)] files).2 !! document doc
      = Some size /\
    size <= MAX_FILE_SIZE /\
    doc = document_of (chat_id m) (document doc) (title_of d).
Proof.
  all_runs; intros Hin; occurs_in Hin.
  all: injection Hin as ->; cbn [document document_of].
  all: match goal with
       | H : (MAX_FILE_SIZE <? ?n) = false |- _ => apply N.ltb_ge in H
       end.
  all: match goal with
       | H : negb _ = false |- _ => apply negb_false_iff in H
       end.
  all: simplify_eq; do 4 eexists; repeat split; eassumption.
Qed.

Lemma upload_only_within_ceiling_witness :
  exists m uid d size,
    message (Demo.update Demo.url) = Some m /\
    from_user m = Some uid /\
    validators_url (Demo.fine 1000) (strip (text m)) = true /\
    extract_info (Demo.fine 1000) (ydl_opts uid) (strip (text m))
      = Returns (Some d) /\
    prepare_filename (Demo.fine 1000) (ydl_opts uid) d
      = Returns (document (document_of 7 Demo.path (title_of Demo.info))) /\
    (download (Demo.fine 1000) (ydl_opts uid) [strip (text m)] ∅).1
      = Returns tt /\
    (download (Demo.fine 1000) (ydl_opts uid) [strip (text m)] ∅).2
      !! document (document_of 7 Demo.path (title_of Demo.info))
      = Some size /\
    size <= MAX_FILE_SIZE /\
    document_of 7 Demo.path (title_of Demo.info) =
      document_of (chat_id m)
        (document (document_of 7 Demo.path (title_of Demo.info)))
        (title_of d).
Proof.
  apply (upload_only_within_ceiling (Demo.fine 1000) (Demo.update Demo.url) ∅
           (document_of 7 Demo.path (title_of Demo.info))).
  vm_compute. present.
Defined.

(** The handler changes the staging directory only through the download
    and by removing the file at the predicted path: at the end the directory
    is the initial one, or the one the download left, or the latter without
    the predicted path. *)
Theorem download_video_touches_only_output (w : World) (update : Update)
    (files : filesystem) :
  fs (run (download_video w update) files).2 = files \/
  exists m uid,
    message update = Some m /\ from_user m = Some uid /\
    (fs (run (download_video w update) files).2 =
       (download w (ydl_opts uid) [strip (text m)] files).2 \/
     exists d path,
       extract_info w (ydl_opts uid) (strip (text m)) = Returns (Some d) /\
       prepare_filename w (ydl_opts uid) d = Returns path /\
       fs (run (download_video w update) files).2 =
         delete path (download w (ydl_opts uid) [strip (text m)] files).2).
Proof.
  all_runs; simplify_eq;
    first [ left; reflexivity
          | right; do 2 eexists; split; [reflexivity |];
            split; [eassumption |];
            first [ left; reflexivity
                  | right; do 2 eexists; split; [eassumption |];
                    split; [eassumption | reflexivity] ] ].
Qed.





(** The cleanup confirmation is truthful: whenever the handler sends it,
    the upload has returned, the uploaded file has been removed and it is no
    longer in the staging directory at the end of the run. *)
Theorem cleanup_notice_is_truthful (w : World) (update : Update)
    (files : filesystem) :
  ReplyText cleanup_message HTML
    ∈ trace (run (download_video w update) files).2 ->
  exists doc,
    SendDocument doc ∈ trace (run (download_video w update) files).2 /\
    send_document w doc = Returns tt /\
    Remove (document doc) ∈ trace (run (download_video w update) files).2 /\
    fs (run (download_video w update) files).2 !! document doc = None.
Proof.
  all_runs; intros Hin; occurs_in Hin.
  all: try (injection Hin as Hin; exfalso;
            eapply too_large_message_other; [|exact Hin]; present).
  all: eexists; split; [present |]; split; [eassumption |];
    split; [present | apply lookup_delete_eq].
Qed.

Lemma cleanup_notice_is_truthful_witness :
  exists doc,
    SendDocument doc
      ∈ trace (run (download_video (Demo.fine 1000)
                      (Demo.update Demo.url)) ∅).2 /\
    send_document (Demo.fine 1000) doc = Returns tt /\
    Remove (document doc)
      ∈ trace (run (download_video (Demo.fine 1000)
                      (Demo.update Demo.url)) ∅).2 /\
    fs (run (download_video (Demo.fine 1000) (Demo.update Demo.url)) ∅).2
      !! document doc = None.
Proof.
  apply (cleanup_notice_is_truthful (Demo.fine 1000) (Demo.update Demo.url) ∅).
  vm_compute. present.
Defined.

(** ** Failure paths leave the staging directory as it is *)

(** When the download raises, nothing is cleaned up: the staging directory
    stays exactly as the download left it, partial files included; nothing
    is uploaded or removed, and the only effect after the download is the
    failure notice (preceded by a log entry unless the exception is
    [DownloadError]). *)
Theorem failed_download_is_not_cleaned_up (w : World) (update : Update)
    (files : filesystem) (m : Message) (uid : Z) (d : info_dict)
    (path : pystr) (e : exn) (files' : filesystem) :
  message update = Some m ->
  from_user m = Some uid ->
  validators_url w (strip (text m)) = true ->
  reply_text w downloading_message = Returns tt ->
  extract_info w (ydl_opts uid) (strip (text m)) = Returns (Some d) ->
  prepare_filename w (ydl_opts uid) d = Returns path ->
  download w (ydl_opts uid) [strip (text m)] files = (Raises e, files') ->
  fs (run (download_video w update) files).2 = files' /\
  trace (run (download_video w update) files).2 =
    stage_events uid (strip (text m)) ++
    match e with
    | DownloadError _ => [ReplyText download_failed_message HTML]
    | Exception msg =>
      [LogError (lit "Error processing video download: " ++ msg);
       ReplyText generic_failure_message HTML]
    end.
Proof.
  intros Hm Hu Hv Hn Hp Hf Hd. unfold download_video. step.
  rewrite Hm. cbn [fs trace]. rewrite Hu. cbn [fs trace].
  rewrite Hv, Hn. cbn [negb]. unfold download_workflow. step.
  rewrite Hp, Hf. step. rewrite Hd. cbn [fst snd].
  rewrite on_failure_eq. destruct e; split; reflexivity.
Qed.

Lemma failed_download_is_not_cleaned_up_witness :
  fs (run (download_video Demo.interrupted (Demo.update Demo.url)) ∅).2
    = <[Demo.partial_path := 4096]> ∅ /\
  trace (run (download_video Demo.interrupted (Demo.update Demo.url)) ∅).2 =
    stage_events 7 (strip (text (Demo.msg Demo.url))) ++
    [ReplyText download_failed_message HTML].
Proof.
  apply (failed_download_is_not_cleaned_up Demo.interrupted
           (Demo.update Demo.url) ∅ (Demo.msg Demo.url) 7 Demo.info Demo.path
           (DownloadError (lit "ERROR: unable to download video data"))
           (<[Demo.partial_path := 4096]> ∅));
    vm_compute; reflexivity.
Defined.

(** When the download returns but no file is at the predicted path, the
    handler logs the error and sends the generic notice; nothing is uploaded
    or removed, and what the download wrote stays in the staging
    directory. *)
Theorem missing_output_is_a_generic_failure (w : World) (update : Update)
    (files : filesystem) (m : Message) (uid : Z) (d : info_dict)
    (path : pystr) (files' : filesystem) :
  staged w update files m uid d path files' ->
  files' !! path = None ->
  (run (download_video w update) files).1
    = reply_text w generic_failure_message /\
  fs (run (download_video w update) files).2 = files' /\
  exists msg,
    trace (run (download_video w update) files).2 =
      stage_events uid (strip (text m)) ++
      [LogError (lit "Error processing video download: " ++ msg);
       ReplyText generic_failure_message HTML].
Proof.
  intros Hst Hs. rewrite (download_video_staged w _ _ _ _ _ _ _ Hst).
  unfold try_except, gate_and_deliver. step. rewrite Hs.
  unfold on_failure. step.
  split; [reflexivity |]. split; [reflexivity |].
  eexists. unfold stage_events. cbn [app]. reflexivity.
Qed.

Lemma missing_output_is_a_generic_failure_witness :
  (run (download_video Demo.mispredicted (Demo.update Demo.url)) ∅).1
    = reply_text Demo.mispredicted generic_failure_message /\
  fs (run (download_video Demo.mispredicted (Demo.update Demo.url)) ∅).2
    = <[Demo.merged_path := 1000]> ∅ /\
  exists msg,
    trace (run (download_video Demo.mispredicted (Demo.update Demo.url)) ∅).2 =
      stage_events 7 (strip (text (Demo.msg Demo.url))) ++
      [LogError (lit "Error processing video download: " ++ msg);
       ReplyText generic_failure_message HTML].
Proof.
  apply (missing_output_is_a_generic_failure Demo.mispredicted
           (Demo.update Demo.url) ∅ (Demo.msg Demo.url) 7 Demo.info Demo.path
           (<[Demo.merged_path := 1000]> ∅)).
  - split; vm_compute; reflexivity.
  - vm_compute; reflexivity.
Defined.

(** When the probe hands back no metadata, nothing is downloaded: the
    handler logs the error and sends the generic notice, and the staging
    directory is untouched. *)
Theorem empty_probe_is_a_generic_failure (w : World) (update : Update)
    (files : filesystem) (m : Message) (uid : Z) :
  message update = Some m ->
  from_user m = Some uid ->
  validators_url w (strip (text m)) = true ->
  reply_text w downloading_message = Returns tt ->
  extract_info w (ydl_opts uid) (strip (text m)) = Returns None ->
  (run (download_video w update) files).1
    = reply_text w generic_failure_message /\
  fs (run (download_video w update) files).2 = files /\
  exists msg,
    trace (run (download_video w update) files).2 =
      [ReplyText downloading_message HTML; YoutubeDL (ydl_opts uid);
       ExtractInfo (strip (text m)) false;
       LogError (lit "Error processing video download: " ++ msg);
       ReplyText generic_failure_message HTML].
Proof.
  intros Hm Hu Hv Hn Hp. unfold download_video. step.
  rewrite Hm. cbn [fs trace]. rewrite Hu. cbn [fs trace].
  rewrite Hv, Hn. cbn [negb]. unfold download_workflow. step.
  rewrite Hp. unfold on_failure. step.
  split; [reflexivity |]. split; [reflexivity |]. eexists. reflexivity.
Qed.

Lemma empty_probe_is_a_generic_failure_witness :
  (run (download_video (Demo.world 0 (Returns None) (Returns tt) [])
          (Demo.update Demo.url)) ∅).1
    = reply_text (Demo.world 0 (Returns None) (Returns tt) [])
        generic_failure_message /\
  fs (run (download_video (Demo.world 0 (Returns None) (Returns tt) [])
             (Demo.update Demo.url)) ∅).2 = ∅ /\
  exists msg,
    trace (run (download_video (Demo.world 0 (Returns None) (Returns tt) [])
                  (Demo.update Demo.url)) ∅).2 =
      [ReplyText downloading_message HTML; YoutubeDL (ydl_opts 7);
       ExtractInfo (strip (text (Demo.msg Demo.url))) false;
       LogError (lit "Error processing video download: " ++ msg);
       ReplyText generic_failure_message HTML].
Proof.
  apply (empty_probe_is_a_generic_failure
           (Demo.world 0 (Returns None) (Returns tt) [])
           (Demo.update Demo.url) ∅ (Demo.msg Demo.url) 7);
    vm_compute; reflexivity.
Defined.

(** ** Edge cases of the metadata and of the update *)

(** The default title applies only when the key is absent.  When the
    metadata has a title key whose value is [None], an accepted file is sent
    under the name [None.mp4] with a caption naming [None]. *)
Theorem null_title_is_not_defaulted (w : World) (update : Update)
    (files : filesystem) (m : Message) (uid : Z) (d : info_dict)
    (path : pystr) (files' : filesystem) (size : N) :
  staged w update files m uid d path files' ->
  d !! lit "title" = Some PyNone ->
  files' !! path = Some size ->
  size <= MAX_FILE_SIZE ->
  exists doc,
    SendDocument doc ∈ trace (run (download_video w update) files).2 /\
    filename doc = lit "None.mp4" /\
    caption doc = lit "🎉 <b>Here’s your file!</b> None 🚀".
Proof.
  intros Hst Hd Hs Hle.
  destruct (accept_effects w _ _ _ _ _ _ _ size Hst Hs Hle) as [Hin _].
  assert (Ht : title_of d = PyNone)
    by (unfold title_of, dict_get; rewrite Hd; reflexivity).
  rewrite Ht in Hin. eexists. split; [exact Hin |].
  split; vm_compute; reflexivity.
Qed.

Lemma null_title_is_not_defaulted_witness :
  exists doc,
    SendDocument doc
      ∈ trace (run (download_video
                      (Demo.world 1000 (Returns (Some Demo.null_title))
                         (Returns tt) [])
                      (Demo.update Demo.url)) ∅).2 /\
    filename doc = lit "None.mp4" /\
    caption doc = lit "🎉 <b>Here’s your file!</b> None 🚀".
Proof.
  apply (null_title_is_not_defaulted
           (Demo.world 1000 (Returns (Some Demo.null_title)) (Returns tt) [])
           (Demo.update Demo.url) ∅ (Demo.msg Demo.url) 7 Demo.null_title
           Demo.path (<[Demo.path := 1000]> ∅) 1000).
  - split; vm_compute; reflexivity.
  - vm_compute; reflexivity.
  - vm_compute; reflexivity.
  - vm_compute; discriminate.
Defined.

(** The cleanup confirmation is sent inside the [try]: when the upload has
    returned and the file has been removed but the confirmation raises, the
    failure is handled like any other, so the user is sent a failure notice
    although the file was delivered. *)
Theorem failed_confirmation_is_reported_as_failure (w : World)
    (update : Update) (files : filesystem) (m : Message) (uid : Z)
    (d : info_dict) (path : pystr) (files' : filesystem) (size : N)
    (e : exn) :
  staged w update files m uid d path files' ->
  files' !! path = Some size ->
  size <= MAX_FILE_SIZE ->
  send_document w (document_of (chat_id m) path (title_of d)) = Returns tt ->
  reply_text w cleanup_message = Raises e ->
  fs (run (download_video w update) files).2 = delete path files' /\
  trace (run (download_video w update) files).2 =
    stage_events uid (strip (text m)) ++
    [SendDocument (document_of (chat_id m) path (title_of d)); Remove path;
     ReplyText cleanup_message HTML] ++
    match e with
    | DownloadError _ => [ReplyText download_failed_message HTML]
    | Exception msg =>
      [LogError (lit "Error processing video download: " ++ msg);
       ReplyText generic_failure_message HTML]
    end.
Proof.
  intros Hst Hs Hle Hsend Hr.
  rewrite (run_accept w _ _ _ _ _ _ _ size Hst Hs Hle), Hsend. cbv zeta.
  rewrite Hr, on_failure_eq. unfold stage_events.
  destruct e; split; reflexivity.
Qed.

Lemma failed_confirmation_is_reported_as_failure_witness :
  fs (run (download_video
             (Demo.world 1000 (Returns (Some Demo.info)) (Returns tt)
                [cleanup_message])
             (Demo.update Demo.url)) ∅).2
    = delete Demo.path (<[Demo.path := 1000]> ∅) /\
  trace (run (download_video
                (Demo.world 1000 (Returns (Some Demo.info)) (Returns tt)
                   [cleanup_message])
                (Demo.update Demo.url)) ∅).2 =
    stage_events 7 (strip (text (Demo.msg Demo.url))) ++
    [SendDocument (document_of (chat_id (Demo.msg Demo.url)) Demo.path
                     (title_of Demo.info));
     Remove Demo.path; ReplyText cleanup_message HTML] ++
    [LogError (lit "Error processing video download: " ++
               lit "Forbidden: bot was blocked by the user");
     ReplyText generic_failure_message HTML].
Proof.
  apply (failed_confirmation_is_reported_as_failure
           (Demo.world 1000 (Returns (Some Demo.info)) (Returns tt)
              [cleanup_message])
           (Demo.update Demo.url) ∅ (Demo.msg Demo.url) 7 Demo.info Demo.path
           (<[Demo.path := 1000]> ∅) 1000 Demo.blocked).
  - split; vm_compute; reflexivity.
  - vm_compute; reflexivity.
  - vm_compute; discriminate.
  - vm_compute; reflexivity.
  - vm_compute; reflexivity.
Defined.

(** A message without a sender is not handled at all: the handler raises
    before it validates anything, so not even the invalid-URL notice is
    sent.  The dispatcher then logs the error and replies with the apology;
    the staging directory is untouched. *)
Theorem sender_is_required (w : World) (update : Update)
    (files : filesystem) (m : Message) :
  message update = Some m ->
  from_user m = None ->
  exists e,
    run (download_video w update) files =
      (Raises e, {| fs := files; trace := [] |}) /\
    run (process_update w DownloadVideo update) files =
      (reply_text w apology_message,
       {| fs := files;
          trace := [LogError (lit "Update " ++ str_update w (Some update) ++
                              lit " caused error " ++ exn_str e);
                    ReplyText apology_message HTML] |}).
Proof.
  intros Hm Hu. eexists.
  assert (Hrun : run (download_video w update) files =
    (Raises (Exception (lit "'NoneType' object has no attribute")),
     {| fs := files; trace := [] |})).
  { unfold download_video. step. rewrite Hm. cbn [fs trace]. rewrite Hu.
    reflexivity. }
  split; [exact Hrun |].
  unfold run in *. unfold process_update, try_except, run_handler.
  rewrite Hrun. unfold error_handler. step. rewrite Hm. reflexivity.
Qed.

Lemma sender_is_required_witness :
  exists e,
    run (download_video (Demo.fine 0) (Demo.anonymous (lit "not a url"))) ∅ =
      (Raises e, {| fs := ∅; trace := [] |}) /\
    run (process_update (Demo.fine 0) DownloadVideo
           (Demo.anonymous (lit "not a url"))) ∅ =
      (reply_text (Demo.fine 0) apology_message,
       {| fs := ∅;
          trace := [LogError (lit "Update " ++
                              str_update (Demo.fine 0)
                                (Some (Demo.anonymous (lit "not a url"))) ++
                              lit " caused error " ++ exn_str e);
                    ReplyText apology_message HTML] |}).
Proof.
  apply (sender_is_required (Demo.fine 0) (Demo.anonymous (lit "not a url"))
           ∅ {| text := lit "not a url"; from_user := None; chat_id := 7%Z |});
    reflexivity.
Defined.

(** The two commands never touch the staging directory or the downloader:
    whatever the update and the transport, processing [/start] or [/help]
    leaves the directory as it was, performs no probe, download, upload or
    removal, and sends at most two replies (the fixed text, and the apology
    when sending that text raises). *)
Theorem commands_download_nothing (w : World) (h : handler)
    (update : Update) (files : filesystem) :
  h <> DownloadVideo ->
  fs (run (process_update w h update) files).2 = files /\
  (count is_probe (trace (run (process_update w h update) files).2) = 0 /\
   count is_download (trace (run (process_update w h update) files).2) = 0 /\
   count is_upload (trace (run (process_update w h update) files).2) = 0 /\
   count is_remove (trace (run (process_update w h update) files).2) = 0 /\
   count is_reply (trace (run (process_update w h update) files).2) <= 2)%nat.
Proof.
  intros Hh. destruct h; [| |congruence];
    unfold process_update, run_handler, start, help_command, error_handler;
    all_runs;
    (split; [reflexivity |]);
    cbv [count List.filter is_probe is_download is_upload is_remove is_reply
         length]; lia.
Qed.

Lemma commands_download_nothing_witness :
  fs (run (process_update (Demo.fine 0) Start (Demo.update (lit "/start")))
        (<[Demo.path := 5]> ∅)).2 = <[Demo.path := 5]> ∅.
Proof.
  apply (commands_download_nothing (Demo.fine 0) Start
           (Demo.update (lit "/start")) (<[Demo.path := 5]> ∅)).
  discriminate.
Defined.

(** ** The text of the message *)

Section StripTwice.

Implicit Types s t : list N.

(** What [lstrip] returns is empty or starts with a character that is not
    whitespace. *)
Lemma lstrip_head s :
  lstrip s = [] \/ exists c r, lstrip s = c :: r /\ isspace c = false.
Proof.
  induction s as [|c s IH]; [left; reflexivity |].
  cbn [lstrip]. destruct (isspace c) eqn:Hc; [exact IH |].
  right. exists c, s. split; [reflexivity | exact Hc].
Qed.

Lemma lstrip_idempotent s : lstrip (lstrip s) = lstrip s.
Proof.
  destruct (lstrip_head s) as [-> | (c & r & -> & Hc)]; [reflexivity |].
  cbn [lstrip]. rewrite Hc. reflexivity.
Qed.

(** [lstrip] removes whitespace from the front, and nothing else. *)
Lemma lstrip_suffix s :
  exists ws, Forall (fun c => isspace c = true) ws /\ s = ws ++ lstrip s.
Proof.
  induction s as [|c s (ws & Hws & IH)]; [exists []; split; [constructor | reflexivity] |].
  cbn [lstrip]. destruct (isspace c) eqn:Hc.
  - exists (c :: ws). split; [constructor; assumption |].
    cbn [app]. rewrite <- IH. reflexivity.
  - exists []. split; [constructor | reflexivity].
Qed.

(** [rstrip] removes whitespace from the back, and nothing else. *)
Lemma rstrip_prefix s :
  exists ws, Forall (fun c => isspace c = true) ws /\ s = rstrip s ++ ws.
Proof.
  destruct (lstrip_suffix (rev s)) as (ws & Hws & Heq).
  exists (rev ws). split; [apply Forall_rev, Hws |].
  unfold rstrip. rewrite <- rev_app_distr, <- Heq, rev_involutive.
  reflexivity.
Qed.

Lemma rstrip_idempotent s : rstrip (rstrip s) = rstrip s.
Proof.
  unfold rstrip. rewrite rev_involutive, lstrip_idempotent. reflexivity.
Qed.

(** Stripping the back keeps a front that is already stripped. *)
Lemma lstrip_rstrip t : lstrip t = t -> lstrip (rstrip t) = rstrip t.
Proof.
  intros Hfix. destruct (rstrip_prefix t) as (ws & _ & Heq).
  destruct (rstrip t) as [|c r]; [reflexivity |].
  destruct (isspace c) eqn:Hc; [|cbn [lstrip]; rewrite Hc; reflexivity].
  exfalso. rewrite Heq in Hfix. cbn [app] in Hfix.
  exact (lstrip_fixed_head c (r ++ ws) Hc Hfix).
Qed.

Lemma strip_idempotent s : strip (strip s) = strip s.
Proof.
  unfold strip.
  rewrite (lstrip_rstrip (lstrip s)) by apply lstrip_idempotent.
  apply rstrip_idempotent.
Qed.

(** [strip] removes whitespace at both ends, and nothing else. *)
Lemma strip_decomposition s :
  exists ws1 ws2,
    Forall (fun c => isspace c = true) ws1 /\
    Forall (fun c => isspace c = true) ws2 /\
    s = ws1 ++ strip s ++ ws2.
Proof.
  destruct (lstrip_suffix s) as (ws1 & H1 & Heq1).
  destruct (rstrip_prefix (lstrip s)) as (ws2 & H2 & Heq2).
  exists ws1, ws2. split; [exact H1 |]. split; [exact H2 |].
  unfold strip. rewrite <- Heq2. exact Heq1.
Qed.

End StripTwice.

(** The handler sees the text of a message only through its stripped form:
    the text is whitespace, then the stripped text, then whitespace, and the
    handler behaves on it exactly as on the stripped text alone (same
    outcome, same effects, same staging directory). *)
Theorem download_video_ignores_surrounding_whitespace (w : World)
    (m : Message) (files : filesystem) :
  (exists ws1 ws2,
     Forall (fun c => isspace c = true) ws1 /\
     Forall (fun c => isspace c = true) ws2 /\
     text m = ws1 ++ strip (text m) ++ ws2) /\
  run (download_video w {| message := Some m |}) files =
    run (download_video w
           {| message := Some {| text := strip (text m);
                                 from_user := from_user m;
                                 chat_id := chat_id m |} |}) files.
Proof.
  split; [apply strip_decomposition |].
  unfold download_video. step. cbn [message text from_user chat_id].
  rewrite strip_idempotent. reflexivity.
Qed.

(** A text of whitespace only is validated as the empty string. *)
Lemma strip_whitespace_only (ws : list N) :
  Forall (fun c => isspace c = true) ws -> strip ws = [].
Proof.
  intros Hws. unfold strip.
  rewrite <- (app_nil_r ws), lstrip_spaces by assumption. reflexivity.
Qed.

(** ** The size printed in the too-large notice *)

Lemma round_half_even_floor (n d : N) : n / d <= round_half_even n d.
Proof.
  unfold round_half_even.
  destruct (2 * (n mod d) <? d); [lia |].
  destruct (d <? 2 * (n mod d)); [lia |].
  destruct (N.even (n / d)); lia.
Qed.

(** Conversion to binary64 keeps a size above the ceiling above it. *)
Lemma float_of_int_above_ceiling (n : N) :
  MAX_FILE_SIZE < n -> MAX_FILE_SIZE < float_of_int n.
Proof.
  intros Hn. unfold float_of_int.
  destruct (N.ltb_spec n (2 ^ 53)) as [|Hbig]; [exact Hn |].
  cbv zeta. set (e := N.log2 n - 52).
  assert (Hlog : 53 <= N.log2 n).
  { rewrite <- (N.log2_pow2 53) by lia. apply N.log2_le_mono, Hbig. }
  assert (Hpow : 2 ^ e * 2 ^ 52 <= n).
  { rewrite <- N.pow_add_r. replace (e + 52) with (N.log2 n) by lia.
    apply N.log2_spec. lia. }
  assert (He : 2 ^ e <> 0) by (apply N.pow_nonzero; lia).
  assert (Hq : 2 ^ 52 <= n / 2 ^ e)
    by (apply N.div_le_lower_bound; assumption).
  pose proof (round_half_even_floor n (2 ^ e)) as Hr.
  apply N.lt_le_trans with (2 ^ 52 * 1); [reflexivity |].
  apply N.mul_le_mono; lia.
Qed.

(** The size printed for a rejected file has an integer part of at least
    400 and exactly two decimal digits: a file above the ceiling is never
    reported as smaller than [400.00]. *)
Theorem rejected_size_is_printed_from_400 (title : pyval) (size : N) :
  MAX_FILE_SIZE < size ->
  exists cents,
    too_large_message title size =
      lit "❌ <b>Sorry!</b> '" ++ py_format title ++ lit "' is too large (" ++
      (str_of_N (cents / 100) ++
       [46; 48 + cents mod 100 / 10; 48 + cents mod 10]) ++
      lit " MB). Max is 400MB! 😞" /\
    400 <= cents / 100 /\
    cents mod 100 / 10 < 10 /\
    cents mod 10 < 10.
Proof.
  intros Hn. exists (mib_cents size).
  split; [reflexivity |].
  assert (Hc : 40000 <= mib_cents size).
  { unfold mib_cents.
    etrans; [|apply round_half_even_floor].
    pose proof (float_of_int_above_ceiling size Hn) as Hf.
    change (1024 * 1024) with 1048576.
    change 40000 with ((MAX_FILE_SIZE + 1) * 100 / 1048576).
    apply N.Div0.div_le_mono, N.mul_le_mono_r. lia. }
  split; [|split].
  - change 400 with (40000 / 100). apply N.Div0.div_le_mono, Hc.
  - apply N.Div0.div_lt_upper_bound.
    apply N.mod_upper_bound. discriminate.
  - apply N.mod_upper_bound. discriminate.
Qed.

Lemma rejected_size_is_printed_from_400_witness :
  exists cents,
    too_large_message (PyStr (lit "Clip")) Demo.oversize =
      lit "❌ <b>Sorry!</b> '" ++ py_format (PyStr (lit "Clip")) ++
      lit "' is too large (" ++
      (str_of_N (cents / 100) ++
       [46; 48 + cents mod 100 / 10; 48 + cents mod 10]) ++
      lit " MB). Max is 400MB! 😞" /\
    400 <= cents / 100 /\
    cents mod 100 / 10 < 10 /\
    cents mod 10 < 10.
Proof.
  apply (rejected_size_is_printed_from_400 (PyStr (lit "Clip")) Demo.oversize).
  reflexivity.
Defined.

(** ** The output template *)

Lemma uint_digits_range (u : Decimal.uint) :
  Forall (fun c => 48 <= c <= 57) (uint_digits u).
Proof. induction u; cbn [uint_digits]; constructor; (lia || assumption). Qed.

Lemma uint_digits_inj (u v : Decimal.uint) :
  uint_digits u = uint_digits v -> u = v.
Proof.
  revert v. induction u; intros [] Heq; cbn [uint_digits] in Heq;
    try discriminate Heq; try reflexivity;
    injection Heq as Heq; f_equal; apply IHu, Heq.
Qed.

Lemma str_of_N_inj (a b : N) : str_of_N a = str_of_N b -> a = b.
Proof.
  intros Heq. apply uint_digits_inj in Heq.
  rewrite <- (DecimalN.Unsigned.of_to a), <- (DecimalN.Unsigned.of_to b), Heq.
  reflexivity.
Qed.

(** The decimal form of a number that is not negative has no sign. *)
Lemma str_of_N_no_sign (a : N) (r : list N) : str_of_N a <> 45 :: r.
Proof.
  intros Heq. pose proof (uint_digits_range (N.to_uint a)) as Hr.
  fold (str_of_N a) in Hr. rewrite Heq in Hr.
  apply Forall_cons in Hr as [Hc _]. lia.
Qed.

Lemma str_of_Z_inj (a b : Z) : str_of_Z a = str_of_Z b -> a = b.
Proof.
  destruct a as [|p|p], b as [|q|q]; cbn [str_of_Z]; intros Heq;
    try reflexivity;
    try (exfalso; eapply str_of_N_no_sign; (exact Heq || (symmetry; exact Heq)));
    try (injection Heq as Heq);
    apply str_of_N_inj in Heq; cbn in Heq; congruence.
Qed.

(** The output template tells users apart: the templates handed to the
    downloader for two users are equal only if the users are the same, and
    every template lies in the download directory. *)
Theorem outtmpl_separates_users (u1 u2 : Z) :
  (outtmpl (ydl_opts u1) = outtmpl (ydl_opts u2) <-> u1 = u2) /\
  exists rest, outtmpl (ydl_opts u1) = lit "downloads/" ++ rest.
Proof.
  split; [split; [|intros ->; reflexivity] |].
  - cbn [outtmpl ydl_opts]. intros Heq.
    apply app_inv_head in Heq. apply app_inv_head in Heq.
    apply app_inv_tail in Heq. apply str_of_Z_inj, Heq.
  - cbn [outtmpl ydl_opts]. eexists. reflexivity.
Qed.

(** ** Start-up *)


(** ** Order of the effects *)

(** Until the progress notice has been delivered the handler does nothing
    but reply: any other effect of a run (constructing the downloader, the
    probe, the download, the upload, a removal, a log entry) occurs only on
    a message whose stripped text the validator accepted, after a progress
    notice that was the first effect and was delivered. *)
Theorem downloader_starts_after_the_notice (w : World) (update : Update)
    (files : filesystem) (ev : event) :
  ev ∈ trace (run (download_video w update) files).2 ->
  is_reply ev = false ->
  exists m,
    message update = Some m /\
    validators_url w (strip (text m)) = true /\
    reply_text w downloading_message = Returns tt /\
    trace (run (download_video w update) files).2 !! 0%nat
      = Some (ReplyText downloading_message HTML).
Proof.
  all_runs; intros Hin Hkind.
  all: try match goal with
           | H : negb _ = false |- _ => apply negb_false_iff in H
           end.
  all: first
    [ exfalso;
      repeat (apply elem_of_cons in Hin as [->|Hin]; [discriminate Hkind |]);
      apply elem_of_nil in Hin; exact Hin
    | eexists; split; [reflexivity |]; split; [eassumption |];
      split; reflexivity ].
Qed.

Lemma downloader_starts_after_the_notice_witness :
  exists m,
    message (Demo.update Demo.url) = Some m /\
    validators_url (Demo.fine 1000) (strip (text m)) = true /\
    reply_text (Demo.fine 1000) downloading_message = Returns tt /\
    trace (run (download_video (Demo.fine 1000) (Demo.update Demo.url)) ∅).2
      !! 0%nat = Some (ReplyText downloading_message HTML).
Proof.
  apply (downloader_starts_after_the_notice (Demo.fine 1000)
           (Demo.update Demo.url) ∅ (Remove Demo.path)).
  - vm_compute. present.
  - reflexivity.
Defined.

